(** * OpenPose [Wrapper]: the facade of the pipeline runtime

    A shallow embedding of [include/openpose/wrapper/wrapper.hpp].  The class
    [op::Wrapper] collects the user's worker registrations and the
    configuration structs, and forwards the lifecycle and the transfer calls to
    its [ThreadManager].  Every member function has the shape

      try { body } catch (const std::exception& e) { error(e.what(), ...); }

    so the embedding is a state monad in which a computation either returns or
    is left by an exception, the state surviving in both cases. *)

From Stdlib Require Import String ZArith List.
From stdpp Require Import base list.
Import ListNotations.
Local Open Scope string_scope.
Local Open Scope Z_scope.

(** ** Enumerations *)

(** Modelled from the spec: [enum class ThreadManagerMode], whose declaration
    is in the thread headers.  The four synchronization modes are those the
    specification names; the header itself names [Synchronous]. *)
Inductive ThreadManagerMode : Set :=
| Asynchronous
| AsynchronousIn
| AsynchronousOut
| Synchronous.

(** Modelled from the spec: [enum class WorkerType], whose declaration is in
    [enumClasses.hpp].  The header names [Input], [Output] and [Size]; the
    specification adds the two processing roles.  The last enumerator, [Size],
    is not a role: it counts the roles, and is the length of the two
    [std::array] members. *)
Inductive WorkerType : Set :=
| Input
| PreProcessing
| PostProcessing
| Output.

(** [int(workerType)], the index into [mUserWs] and [mUserWsOnNewThread]. *)
Definition int (workerType : WorkerType) : nat :=
  match workerType with
  | Input => 0%nat
  | PreProcessing => 1%nat
  | PostProcessing => 2%nat
  | Output => 3%nat
  end.

(** [int(WorkerType::Size)]. *)
Definition Size : nat := 4%nat.

#[global] Instance WorkerType_eq_dec : EqDecision WorkerType.
Proof. solve_decision. Defined.

#[global] Instance ThreadManagerMode_eq_dec : EqDecision ThreadManagerMode.
Proof. solve_decision. Defined.

(** ** How a call ends *)

(** A call either returns a value or is left by a [std::exception] whose
    [what()] is recorded. *)
Inductive outcome (A : Type) : Type :=
| Returns (a : A)
| Throws (what : string).
Arguments Returns {A} a.
Arguments Throws {A} what.

(** ** Data

    [Datum] is only used through its field [cvInputData]; what else it holds is
    kept as one opaque field.  [TDatums] is a [std::vector] of them, and
    [TDatumsSP] a shared pointer to it, [None] being [nullptr]. *)
Record Datum (Mat DatumRest : Type) : Type := {
  cvInputData : Mat;
  datumRest : DatumRest
}.
Arguments cvInputData {Mat DatumRest} _.
Arguments datumRest {Mat DatumRest} _.

(** ** What the header takes from the rest of the library

    [wrapper.hpp] includes the thread manager, the datum, the configuration
    structs, [configureThreadManager] and the reporting functions [error] and
    [log]; none of them is defined in this header.  They are the parameters of
    the development: every theorem below holds for each implementation of
    them.

    - A thread-manager member function maps the manager's state to an outcome
      and a new state; a function that takes [TDatumsSP&] also gives the new
      content of the referenced variable.
    - [error_raise message line function file] says how a call of [error]
      ends: [Some what] when it throws an exception with that [what()], [None]
      when it returns to its caller. *)
Class Externals : Type := {
  Mat : Type;
  DatumRest : Type;
  Worker : Type;
  ThreadManager : Type;
  WrapperStructPose : Type;
  WrapperStructFace : Type;
  WrapperStructHand : Type;
  WrapperStructExtra : Type;
  WrapperStructInput : Type;
  WrapperStructOutput : Type;
  (* default construction *)
  DatumRest_default : DatumRest;
  Mat_default : Mat;
  WrapperStructPose_default : WrapperStructPose;
  WrapperStructFace_default : WrapperStructFace;
  WrapperStructHand_default : WrapperStructHand;
  WrapperStructExtra_default : WrapperStructExtra;
  WrapperStructInput_default : WrapperStructInput;
  WrapperStructOutput_default : WrapperStructOutput;
  (* reporting *)
  error_raise : string -> Z -> string -> string -> option string;
  (* ThreadManager<TDatumsSP> *)
  tm_ctor : ThreadManagerMode -> ThreadManager;
  tm_reset : ThreadManager -> outcome unit * ThreadManager;
  tm_exec : ThreadManager -> outcome unit * ThreadManager;
  tm_start : ThreadManager -> outcome unit * ThreadManager;
  tm_stop : ThreadManager -> outcome unit * ThreadManager;
  tm_isRunning : ThreadManager -> outcome bool;
  tm_tryEmplace : ThreadManager -> option (list (Datum Mat DatumRest)) ->
                  outcome bool * ThreadManager * option (list (Datum Mat DatumRest));
  tm_waitAndEmplace : ThreadManager -> option (list (Datum Mat DatumRest)) ->
                  outcome bool * ThreadManager * option (list (Datum Mat DatumRest));
  tm_tryPush : ThreadManager -> option (list (Datum Mat DatumRest)) ->
                  outcome bool * ThreadManager;
  tm_waitAndPush : ThreadManager -> option (list (Datum Mat DatumRest)) ->
                  outcome bool * ThreadManager;
  tm_tryPop : ThreadManager -> option (list (Datum Mat DatumRest)) ->
                  outcome bool * ThreadManager * option (list (Datum Mat DatumRest));
  tm_waitAndPop : ThreadManager -> option (list (Datum Mat DatumRest)) ->
                  outcome bool * ThreadManager * option (list (Datum Mat DatumRest));
  (* wrapperAuxiliary.hpp *)
  configureThreadManager :
    ThreadManager -> bool -> ThreadManagerMode ->
    WrapperStructPose -> WrapperStructFace -> WrapperStructHand ->
    WrapperStructExtra -> WrapperStructInput -> WrapperStructOutput ->
    list (list (option Worker)) -> list bool ->
    outcome unit * ThreadManager
}.

Section Wrapper.
Context {X : Externals}.

Definition TDatums : Type := list (Datum Mat DatumRest).
Definition TDatumsSP : Type := option TDatums.

(** [TWorker] is a shared pointer to a worker; [None] is [nullptr]. *)
Definition TWorker : Type := option Worker.

(** The private members of [Wrapper].  [mThreadManagerMode] is declared
    [const]; the two arrays are [std::array]s of length [Size], indexed by
    [int(workerType)]. *)
Record WrapperData : Type := {
  mThreadManagerMode : ThreadManagerMode;
  mThreadManager : ThreadManager;
  mMultiThreadEnabled : bool;
  mWrapperStructPose : WrapperStructPose;
  mWrapperStructFace : WrapperStructFace;
  mWrapperStructHand : WrapperStructHand;
  mWrapperStructExtra : WrapperStructExtra;
  mWrapperStructInput : WrapperStructInput;
  mWrapperStructOutput : WrapperStructOutput;
  mUserWsOnNewThread : list bool;
  mUserWs : list (list TWorker)
}.

(** What a call leaves behind outside the object: the reports made through
    [error] and [log], and the calls made on the thread manager. *)
Inductive TMCall : Type :=
| TmReset | TmExec | TmStart | TmStop | TmIsRunning
| TmTryEmplace (d : TDatumsSP) | TmWaitAndEmplace (d : TDatumsSP)
| TmTryPush (d : TDatumsSP) | TmWaitAndPush (d : TDatumsSP)
| TmTryPop (d : TDatumsSP) | TmWaitAndPop (d : TDatumsSP)
| TmConfigure.

Inductive Event : Type :=
| EvError (message : string) (line : Z) (function file : string)
| EvLog (message : string) (line : Z) (function file : string)
| EvCall (c : TMCall).

(** The state a member function runs in: the object, the caller's variable
    bound to the reference parameter [tDatums] of the transfer calls, and the
    events so far, oldest first. *)
Record State : Type := {
  self : WrapperData;
  tDatums : TDatumsSP;
  events : list Event
}.

Definition M (A : Type) : Type := State -> outcome A * State.

#[local] Instance M_ret : MRet M := fun A a s => (Returns a, s).

#[local] Instance M_bind : MBind M := fun A B k c s =>
  match c s with
  | (Returns a, s') => k a s'
  | (Throws what, s') => (Throws what, s')
  end.

(** [try { body } catch (const std::exception& e) { handler(e.what()) }]. *)
Definition try_catch {A : Type} (body : M A) (handler : string -> M A) : M A :=
  fun s =>
    match body s with
    | (Returns a, s') => (Returns a, s')
    | (Throws what, s') => handler what s'
    end.

Definition emit (e : Event) : M unit := fun s =>
  (Returns tt, {| self := self s; tDatums := tDatums s; events := (events s ++ [e])%list |}).

(** [error(message, line, function, file)]: the report is made, then the call
    throws or returns as [error_raise] says. *)
Definition error (message : string) (line : Z) (function file : string) : M unit :=
  fun s =>
    match emit (EvError message line function file) s with
    | (_, s') =>
        match error_raise message line function file with
        | Some what => (Throws what, s')
        | None => (Returns tt, s')
        end
    end.

(** [log(message, Priority::Low, line, function, file)]. *)
Definition log (message : string) (line : Z) (function file : string) : M unit :=
  emit (EvLog message line function file).

(** Reading and writing the members. *)
Definition get_self : M WrapperData := fun s => (Returns (self s), s).

Definition put_self (w : WrapperData) : M unit := fun s =>
  (Returns tt, {| self := w; tDatums := tDatums s; events := events s |}).

Definition put_tDatums (d : TDatumsSP) : M unit := fun s =>
  (Returns tt, {| self := self s; tDatums := d; events := events s |}).

Definition set_mThreadManager (tm : ThreadManager) (w : WrapperData) : WrapperData :=
  {| mThreadManagerMode := mThreadManagerMode w;
     mThreadManager := tm;
     mMultiThreadEnabled := mMultiThreadEnabled w;
     mWrapperStructPose := mWrapperStructPose w;
     mWrapperStructFace := mWrapperStructFace w;
     mWrapperStructHand := mWrapperStructHand w;
     mWrapperStructExtra := mWrapperStructExtra w;
     mWrapperStructInput := mWrapperStructInput w;
     mWrapperStructOutput := mWrapperStructOutput w;
     mUserWsOnNewThread := mUserWsOnNewThread w;
     mUserWs := mUserWs w |}.

Definition set_mMultiThreadEnabled (b : bool) (w : WrapperData) : WrapperData :=
  {| mThreadManagerMode := mThreadManagerMode w;
     mThreadManager := mThreadManager w;
     mMultiThreadEnabled := b;
     mWrapperStructPose := mWrapperStructPose w;
     mWrapperStructFace := mWrapperStructFace w;
     mWrapperStructHand := mWrapperStructHand w;
     mWrapperStructExtra := mWrapperStructExtra w;
     mWrapperStructInput := mWrapperStructInput w;
     mWrapperStructOutput := mWrapperStructOutput w;
     mUserWsOnNewThread := mUserWsOnNewThread w;
     mUserWs := mUserWs w |}.

Definition set_mUserWs (ws : list (list TWorker)) (w : WrapperData) : WrapperData :=
  {| mThreadManagerMode := mThreadManagerMode w;
     mThreadManager := mThreadManager w;
     mMultiThreadEnabled := mMultiThreadEnabled w;
     mWrapperStructPose := mWrapperStructPose w;
     mWrapperStructFace := mWrapperStructFace w;
     mWrapperStructHand := mWrapperStructHand w;
     mWrapperStructExtra := mWrapperStructExtra w;
     mWrapperStructInput := mWrapperStructInput w;
     mWrapperStructOutput := mWrapperStructOutput w;
     mUserWsOnNewThread := mUserWsOnNewThread w;
     mUserWs := ws |}.

Definition set_mUserWsOnNewThread (fs : list bool) (w : WrapperData) : WrapperData :=
  {| mThreadManagerMode := mThreadManagerMode w;
     mThreadManager := mThreadManager w;
     mMultiThreadEnabled := mMultiThreadEnabled w;
     mWrapperStructPose := mWrapperStructPose w;
     mWrapperStructFace := mWrapperStructFace w;
     mWrapperStructHand := mWrapperStructHand w;
     mWrapperStructExtra := mWrapperStructExtra w;
     mWrapperStructInput := mWrapperStructInput w;
     mWrapperStructOutput := mWrapperStructOutput w;
     mUserWsOnNewThread := fs;
     mUserWs := mUserWs w |}.

Definition set_structs (p : WrapperStructPose) (f : WrapperStructFace)
    (h : WrapperStructHand) (e : WrapperStructExtra) (i : WrapperStructInput)
    (o : WrapperStructOutput) (w : WrapperData) : WrapperData :=
  {| mThreadManagerMode := mThreadManagerMode w;
     mThreadManager := mThreadManager w;
     mMultiThreadEnabled := mMultiThreadEnabled w;
     mWrapperStructPose := p;
     mWrapperStructFace := f;
     mWrapperStructHand := h;
     mWrapperStructExtra := e;
     mWrapperStructInput := i;
     mWrapperStructOutput := o;
     mUserWsOnNewThread := mUserWsOnNewThread w;
     mUserWs := mUserWs w |}.

Definition modify_self (f : WrapperData -> WrapperData) : M unit :=
  w ← get_self; put_self (f w).

(** The file name [__FILE__] expands to. *)
Definition FILE : string := "include/openpose/wrapper/wrapper.hpp".

(** A call of a member function of [mThreadManager]. *)
Definition callTM {A : Type} (c : TMCall)
    (f : ThreadManager -> outcome A * ThreadManager) : M A := fun s =>
  match f (mThreadManager (self s)) with
  | (r, tm') =>
      (r, {| self := set_mThreadManager tm' (self s);
             tDatums := tDatums s;
             events := (events s ++ [EvCall c])%list |})
  end.

(** The same for the member functions that take [TDatumsSP& tDatums]. *)
Definition callTM_ref {A : Type} (c : TDatumsSP -> TMCall)
    (f : ThreadManager -> TDatumsSP -> outcome A * ThreadManager * TDatumsSP) : M A :=
  fun s =>
    match f (mThreadManager (self s)) (tDatums s) with
    | (r, tm', d') =>
        (r, {| self := set_mThreadManager tm' (self s);
               tDatums := d';
               events := (events s ++ [EvCall (c (tDatums s))])%list |})
    end.

(** And for those that take [const TDatumsSP& tDatums]. *)
Definition callTM_cref {A : Type} (c : TDatumsSP -> TMCall)
    (f : ThreadManager -> TDatumsSP -> outcome A * ThreadManager) : M A :=
  fun s =>
    match f (mThreadManager (self s)) (tDatums s) with
    | (r, tm') =>
        (r, {| self := set_mThreadManager tm' (self s);
               tDatums := tDatums s;
               events := (events s ++ [EvCall (c (tDatums s))])%list |})
    end.

(** [mUserWs[int(workerType)].empty()].  The index is in range for every
    [WorkerType]; the default is never reached on an array of length [Size]. *)
Definition userWs_empty (workerType : WorkerType) (w : WrapperData) : bool :=
  match mUserWs w !! int workerType with
  | Some [] => true
  | Some (_ :: _) => false
  | None => true
  end.

(** ** The member functions *)

(** The constructor.  [mUserWsOnNewThread] is not initialized by it; its
    content is whatever [uninit] gives. *)
Definition Wrapper_ctor (threadManagerMode : ThreadManagerMode)
    (uninit : nat -> bool) : WrapperData :=
  {| mThreadManagerMode := threadManagerMode;
     mThreadManager := tm_ctor threadManagerMode;
     mMultiThreadEnabled := true;
     mWrapperStructPose := WrapperStructPose_default;
     mWrapperStructFace := WrapperStructFace_default;
     mWrapperStructHand := WrapperStructHand_default;
     mWrapperStructExtra := WrapperStructExtra_default;
     mWrapperStructInput := WrapperStructInput_default;
     mWrapperStructOutput := WrapperStructOutput_default;
     mUserWsOnNewThread := uninit <$> seq 0 Size;
     mUserWs := replicate Size [] |}.

Definition disableMultiThreading : M unit :=
  try_catch
    (modify_self (set_mMultiThreadEnabled false))
    (fun what => error what 269 "disableMultiThreading" FILE).

Definition setWorker (workerType : WorkerType) (worker : TWorker)
    (workerOnNewThread : bool) : M unit :=
  try_catch
    ((* Security check *)
     (if worker is None
      then error "Your worker is a nullptr." 281 FILE "setWorker"
      else mret tt);;
     (* Add worker *)
     modify_self (fun w => set_mUserWs (<[int workerType := []]> (mUserWs w)) w);;
     modify_self (fun w =>
       set_mUserWs (alter (fun v => (v ++ [worker])%list) (int workerType) (mUserWs w)) w);;
     modify_self (fun w =>
       set_mUserWsOnNewThread
         (<[int workerType := workerOnNewThread]> (mUserWsOnNewThread w)) w))
    (fun what => error what 289 "setWorker" FILE).

Definition configure (wrapperStructPose : WrapperStructPose)
    (wrapperStructFace : WrapperStructFace) (wrapperStructHand : WrapperStructHand)
    (wrapperStructExtra : WrapperStructExtra) (wrapperStructInput : WrapperStructInput)
    (wrapperStructOutput : WrapperStructOutput) : M unit :=
  try_catch
    (modify_self (set_structs wrapperStructPose wrapperStructFace wrapperStructHand
                    wrapperStructExtra wrapperStructInput wrapperStructOutput))
    (fun what => error what 312 "configure" FILE).

Definition configure_Face (wrapperStructFace : WrapperStructFace) : M unit :=
  try_catch
    (modify_self (fun w =>
       set_structs (mWrapperStructPose w) wrapperStructFace (mWrapperStructHand w)
         (mWrapperStructExtra w) (mWrapperStructInput w) (mWrapperStructOutput w) w))
    (fun what => error what 338 "configure" FILE).

Definition configure_Hand (wrapperStructHand : WrapperStructHand) : M unit :=
  try_catch
    (modify_self (fun w =>
       set_structs (mWrapperStructPose w) (mWrapperStructFace w) wrapperStructHand
         (mWrapperStructExtra w) (mWrapperStructInput w) (mWrapperStructOutput w) w))
    (fun what => error what 351 "configure" FILE).

Definition configure_Extra (wrapperStructExtra : WrapperStructExtra) : M unit :=
  try_catch
    (modify_self (fun w =>
       set_structs (mWrapperStructPose w) (mWrapperStructFace w) (mWrapperStructHand w)
         wrapperStructExtra (mWrapperStructInput w) (mWrapperStructOutput w) w))
    (fun what => error what 364 "configure" FILE).

Definition configure_Input (wrapperStructInput : WrapperStructInput) : M unit :=
  try_catch
    (modify_self (fun w =>
       set_structs (mWrapperStructPose w) (mWrapperStructFace w) (mWrapperStructHand w)
         (mWrapperStructExtra w) wrapperStructInput (mWrapperStructOutput w) w))
    (fun what => error what 377 "configure" FILE).

Definition configure_Output (wrapperStructOutput : WrapperStructOutput) : M unit :=
  try_catch
    (modify_self (fun w =>
       set_structs (mWrapperStructPose w) (mWrapperStructFace w) (mWrapperStructHand w)
         (mWrapperStructExtra w) (mWrapperStructInput w) wrapperStructOutput w))
    (fun what => error what 390 "configure" FILE).

(** [configureThreadManager<...>(mThreadManager, mMultiThreadEnabled, ...)]:
    the manager is passed by reference, everything else is read. *)
Definition call_configureThreadManager : M unit :=
  w ← get_self;
  callTM TmConfigure (fun tm =>
    configureThreadManager tm (mMultiThreadEnabled w) (mThreadManagerMode w)
      (mWrapperStructPose w) (mWrapperStructFace w) (mWrapperStructHand w)
      (mWrapperStructExtra w) (mWrapperStructInput w) (mWrapperStructOutput w)
      (mUserWs w) (mUserWsOnNewThread w)).

Definition exec : M unit :=
  try_catch
    (call_configureThreadManager;;
     log "" 403 "exec" FILE;;
     callTM TmExec tm_exec)
    (fun what => error what 408 "exec" FILE).

Definition start : M unit :=
  try_catch
    (call_configureThreadManager;;
     log "" 421 "start" FILE;;
     callTM TmStart tm_start)
    (fun what => error what 426 "start" FILE).

Definition stop : M unit :=
  try_catch
    (callTM TmStop tm_stop)
    (fun what => error what 439 "stop" FILE).

Definition isRunning : M bool :=
  try_catch
    (callTM TmIsRunning (fun tm => (tm_isRunning tm, tm)))
    (fun what => error what 452 "isRunning" FILE;; mret false).


(** The handler of the functions that return [bool]:
    [catch (const std::exception& e) { error(e.what(), ...); return false; }]. *)
Definition catch_false (line : Z) (function : string) (what : string) : M bool :=
  error what line function FILE;; mret false.

Definition tryEmplace_try : M bool :=
  w ← get_self;
  (if negb (userWs_empty Input w)
   then error "Emplace cannot be called if an input worker was already selected."
              464 "tryEmplace" FILE
   else mret tt);;
  callTM_ref TmTryEmplace tm_tryEmplace.

Definition tryEmplace : M bool :=
  try_catch tryEmplace_try (catch_false 469 "tryEmplace").

Definition waitAndEmplace_try : M bool :=
  w ← get_self;
  (if negb (userWs_empty Input w)
   then error "Emplace cannot be called if an input worker was already selected."
              481 "waitAndEmplace" FILE
   else mret tt);;
  callTM_ref TmWaitAndEmplace tm_waitAndEmplace.

Definition waitAndEmplace : M bool :=
  try_catch waitAndEmplace_try (catch_false 486 "waitAndEmplace").

Definition tryPush_try : M bool :=
  w ← get_self;
  (if negb (userWs_empty Input w)
   then error "Push cannot be called if an input worker was already selected."
              498 "tryPush" FILE
   else mret tt);;
  callTM_cref TmTryPush tm_tryPush.

Definition tryPush : M bool :=
  try_catch tryPush_try (catch_false 503 "tryPush").

Definition waitAndPush_try : M bool :=
  w ← get_self;
  (if negb (userWs_empty Input w)
   then error "Push cannot be called if an input worker was already selected."
              515 "waitAndPush" FILE
   else mret tt);;
  callTM_cref TmWaitAndPush tm_waitAndPush.

Definition waitAndPush : M bool :=
  try_catch waitAndPush_try (catch_false 520 "waitAndPush").

Definition tryPop_try : M bool :=
  w ← get_self;
  (if negb (userWs_empty Output w)
   then error "Pop cannot be called if an output worker was already selected."
              532 "tryPop" FILE
   else mret tt);;
  callTM_ref TmTryPop tm_tryPop.

Definition tryPop : M bool :=
  try_catch tryPop_try (catch_false 537 "tryPop").

Definition waitAndPop_try : M bool :=
  w ← get_self;
  (if negb (userWs_empty Output w)
   then error "Pop cannot be called if an output worker was already selected."
              549 "waitAndPop" FILE
   else mret tt);;
  callTM_ref TmWaitAndPop tm_waitAndPop.

Definition waitAndPop : M bool :=
  try_catch waitAndPop_try (catch_false 554 "waitAndPop").

Definition emplaceAndPop_try : M bool :=
  (* Run waitAndEmplace + waitAndPop *)
  emplaced ← waitAndEmplace;
  if emplaced : bool then waitAndPop else mret false.

Definition emplaceAndPop : M bool :=
  try_catch emplaceAndPop_try (catch_false 571 "emplaceAndPop").

(** A call that binds the local variable [local] to the callee's reference
    parameter: the callee runs on it, and the caller reads it back. *)
Definition with_local {A : Type} (local : TDatumsSP) (callee : M A) : M (A * TDatumsSP) :=
  fun s =>
    match callee {| self := self s; tDatums := local; events := events s |} with
    | (Returns a, s') =>
        (Returns (a, tDatums s'),
         {| self := self s'; tDatums := tDatums s; events := events s' |})
    | (Throws what, s') =>
        (Throws what,
         {| self := self s'; tDatums := tDatums s; events := events s' |})
    end.

(** A default-constructed [Datum], as [emplace_back()] makes it. *)
Definition Datum_default : Datum Mat DatumRest :=
  {| cvInputData := Mat_default; datumRest := DatumRest_default |}.

Definition set_cvInputData (cvMat : Mat) (datum : Datum Mat DatumRest) :
    Datum Mat DatumRest :=
  {| cvInputData := cvMat; datumRest := datumRest datum |}.

(** The overload [TDatumsSP emplaceAndPop(const cv::Mat& cvMat)].  Its last
    [return false] yields a null pointer. *)
Definition emplaceAndPop_cvMat (cvMat : Mat) : M TDatumsSP :=
  try_catch
    ((* Create new datum *)
     let datums : TDatums := [] in
     let datums := (datums ++ [Datum_default])%list in
     (* Fill datum *)
     let datums := alter (set_cvInputData cvMat) 0%nat datums in
     let datumsPtr : TDatumsSP := Some datums in
     (* Emplace and pop *)
     r ← with_local datumsPtr emplaceAndPop;
     (* Return result *)
     mret (snd r))
    (fun what => error what 594 "emplaceAndPop" FILE;; mret None).

(** The destructor.  An exception that leaves a destructor ends the program;
    the model shows that end as [Throws]. *)
Definition Wrapper_dtor : M unit :=
  try_catch
    (stop;;
     (* Reset mThreadManager *)
     callTM TmReset tm_reset;;
     (* Reset user workers *)
     modify_self (fun w => set_mUserWs ((fun userW => []) <$> mUserWs w) w))
    (fun what => error what 256 "~Wrapper" FILE).

(** ** The calls of the interface, as data *)

(** The six transfer calls that act on one end of the pipeline. *)
Inductive TransferCall : Set :=
| TryEmplace | WaitAndEmplace | TryPush | WaitAndPush | TryPop | WaitAndPop.

Definition transfer (t : TransferCall) : M bool :=
  match t with
  | TryEmplace => tryEmplace
  | WaitAndEmplace => waitAndEmplace
  | TryPush => tryPush
  | WaitAndPush => waitAndPush
  | TryPop => tryPop
  | WaitAndPop => waitAndPop
  end.

(** The role whose registration the call checks. *)
Definition transfer_end (t : TransferCall) : WorkerType :=
  match t with
  | TryEmplace | WaitAndEmplace | TryPush | WaitAndPush => Input
  | TryPop | WaitAndPop => Output
  end.

(** The member function of the thread manager the call forwards to. *)
Definition forwarded (t : TransferCall) : M bool :=
  match t with
  | TryEmplace => callTM_ref TmTryEmplace tm_tryEmplace
  | WaitAndEmplace => callTM_ref TmWaitAndEmplace tm_waitAndEmplace
  | TryPush => callTM_cref TmTryPush tm_tryPush
  | WaitAndPush => callTM_cref TmWaitAndPush tm_waitAndPush
  | TryPop => callTM_ref TmTryPop tm_tryPop
  | WaitAndPop => callTM_ref TmWaitAndPop tm_waitAndPop
  end.

(** Message and [__LINE__] of the report the check makes, the function's name,
    and the [__LINE__] of the report in its handler. *)
Definition guard_message (t : TransferCall) : string :=
  match t with
  | TryEmplace | WaitAndEmplace =>
      "Emplace cannot be called if an input worker was already selected."
  | TryPush | WaitAndPush =>
      "Push cannot be called if an input worker was already selected."
  | TryPop | WaitAndPop =>
      "Pop cannot be called if an output worker was already selected."
  end.

Definition guard_line (t : TransferCall) : Z :=
  match t with
  | TryEmplace => 464 | WaitAndEmplace => 481 | TryPush => 498
  | WaitAndPush => 515 | TryPop => 532 | WaitAndPop => 549
  end.

Definition function_name (t : TransferCall) : string :=
  match t with
  | TryEmplace => "tryEmplace" | WaitAndEmplace => "waitAndEmplace"
  | TryPush => "tryPush" | WaitAndPush => "waitAndPush"
  | TryPop => "tryPop" | WaitAndPop => "waitAndPop"
  end.

Definition catch_line (t : TransferCall) : Z :=
  match t with
  | TryEmplace => 469 | WaitAndEmplace => 486 | TryPush => 503
  | WaitAndPush => 520 | TryPop => 537 | WaitAndPop => 554
  end.

(** The seven caller-facing transfer operations: the six above and
    [emplaceAndPop(TDatumsSP&)]. *)
Inductive TransferOp : Set :=
| OneEnd (t : TransferCall)
| BothEnds.

Definition op_run (op : TransferOp) : M bool :=
  match op with
  | OneEnd t => transfer t
  | BothEnds => emplaceAndPop
  end.

(** The [try] block of the operation. *)
Definition op_try (op : TransferOp) : M bool :=
  match op with
  | OneEnd TryEmplace => tryEmplace_try
  | OneEnd WaitAndEmplace => waitAndEmplace_try
  | OneEnd TryPush => tryPush_try
  | OneEnd WaitAndPush => waitAndPush_try
  | OneEnd TryPop => tryPop_try
  | OneEnd WaitAndPop => waitAndPop_try
  | BothEnds => emplaceAndPop_try
  end.

Definition op_name (op : TransferOp) : string :=
  match op with
  | OneEnd t => function_name t
  | BothEnds => "emplaceAndPop"
  end.

Definition op_catch_line (op : TransferOp) : Z :=
  match op with
  | OneEnd t => catch_line t
  | BothEnds => 571
  end.

(** Everything a caller can do with a live [Wrapper]; [CallerAssigns] is the
    caller writing its own variable between two transfer calls. *)
Inductive Call : Type :=
| CallDisableMultiThreading
| CallSetWorker (workerType : WorkerType) (worker : TWorker) (workerOnNewThread : bool)
| CallConfigure (p : WrapperStructPose) (f : WrapperStructFace) (h : WrapperStructHand)
    (e : WrapperStructExtra) (i : WrapperStructInput) (o : WrapperStructOutput)
| CallConfigureFace (f : WrapperStructFace)
| CallConfigureHand (h : WrapperStructHand)
| CallConfigureExtra (e : WrapperStructExtra)
| CallConfigureInput (i : WrapperStructInput)
| CallConfigureOutput (o : WrapperStructOutput)
| CallExec
| CallStart
| CallStop
| CallIsRunning
| CallTransfer (op : TransferOp)
| CallEmplaceAndPopMat (cvMat : Mat)
| CallerAssigns (d : TDatumsSP).

(** The state after the call, however the call ended. *)
Definition run_call (c : Call) (s : State) : State :=
  match c with
  | CallDisableMultiThreading => snd (disableMultiThreading s)
  | CallSetWorker workerType worker workerOnNewThread =>
      snd (setWorker workerType worker workerOnNewThread s)
  | CallConfigure p f h e i o => snd (configure p f h e i o s)
  | CallConfigureFace f => snd (configure_Face f s)
  | CallConfigureHand h => snd (configure_Hand h s)
  | CallConfigureExtra e => snd (configure_Extra e s)
  | CallConfigureInput i => snd (configure_Input i s)
  | CallConfigureOutput o => snd (configure_Output o s)
  | CallExec => snd (exec s)
  | CallStart => snd (start s)
  | CallStop => snd (stop s)
  | CallIsRunning => snd (isRunning s)
  | CallTransfer op => snd (op_run op s)
  | CallEmplaceAndPopMat cvMat => snd (emplaceAndPop_cvMat cvMat s)
  | CallerAssigns d => snd (put_tDatums d s)
  end.

Definition run_calls (cs : list Call) (s : State) : State :=
  fold_left (fun s c => run_call c s) cs s.

(** A freshly constructed [Wrapper], next to a caller's variable. *)
Definition constructed (threadManagerMode : ThreadManagerMode) (uninit : nat -> bool)
    (d : TDatumsSP) : State :=
  {| self := Wrapper_ctor threadManagerMode uninit; tDatums := d; events := [] |}.

(** A computation that leaves every state related by [R] to the state it
    started in, however it ends. *)
Definition preserved (R : State -> State -> Prop) {A : Type} (c : M A) : Prop :=
  forall s : State, R s (snd (c s)).

(** The stored mode is the same in both states. *)
Definition same_mode (s s' : State) : Prop :=
  mThreadManagerMode (self s') = mThreadManagerMode (self s).

(** The events of the second state continue those of the first. *)
Definition events_continue (s s' : State) : Prop :=
  events s `prefix_of` events s'.

(** The typing invariant of the two [std::array] members. *)
Definition arrays_sized (w : WrapperData) : Prop :=
  length (mUserWs w) = Size /\ length (mUserWsOnNewThread w) = Size.

(** The same object with another value in [mThreadManagerMode]. *)
Definition with_mode (m : ThreadManagerMode) (s : State) : State :=
  {| self :=
       {| mThreadManagerMode := m;
          mThreadManager := mThreadManager (self s);
          mMultiThreadEnabled := mMultiThreadEnabled (self s);
          mWrapperStructPose := mWrapperStructPose (self s);
          mWrapperStructFace := mWrapperStructFace (self s);
          mWrapperStructHand := mWrapperStructHand (self s);
          mWrapperStructExtra := mWrapperStructExtra (self s);
          mWrapperStructInput := mWrapperStructInput (self s);
          mWrapperStructOutput := mWrapperStructOutput (self s);
          mUserWsOnNewThread := mUserWsOnNewThread (self s);
          mUserWs := mUserWs (self s) |};
     tDatums := tDatums s;
     events := events s |}.

(** A computation that never reads [mThreadManagerMode]. *)
Definition mode_blind {A : Type} (c : M A) : Prop :=
  forall (m : ThreadManagerMode) (s : State),
    c (with_mode m s) = (fst (c s), with_mode m (snd (c s))).

(** ** Which calls write what *)

(** Two states agree on what [P] reads of the object. *)
Definition agree {T : Type} (P : WrapperData -> T) (s s' : State) : Prop :=
  P (self s') = P (self s).

Definition is_setWorker (c : Call) : bool :=
  match c with
  | CallSetWorker _ _ _ => true
  | _ => false
  end.

Definition is_disableMultiThreading (c : Call) : bool :=
  match c with
  | CallDisableMultiThreading => true
  | _ => false
  end.

(** The overload of [configure] that takes all six structs. *)
Definition is_full_configure (c : Call) : bool :=
  match c with
  | CallConfigure _ _ _ _ _ _ => true
  | _ => false
  end.

(** The calls whose bodies only call the thread manager: the lifecycle and the
    transfer calls. *)
Definition manager_call (c : Call) : bool :=
  match c with
  | CallExec | CallStart | CallStop | CallIsRunning
  | CallTransfer _ | CallEmplaceAndPopMat _ => true
  | _ => false
  end.

(** The registrations: the workers and the flags of every role. *)
Definition registrations (w : WrapperData) : list (list TWorker) * list bool :=
  (mUserWs w, mUserWsOnNewThread w).

(** The lengths of the two arrays. *)
Definition array_sizes (w : WrapperData) : nat * nat :=
  (length (mUserWs w), length (mUserWsOnNewThread w)).

(** The batch [emplaceAndPop(cvMat)] builds. *)
Definition batch_of (cvMat : Mat) : TDatumsSP :=
  Some [ {| cvInputData := cvMat; datumRest := DatumRest_default |} ].

(** [configureThreadManager] on the members, as [exec] and [start] call it. *)
Definition configureThreadManager_on (w : WrapperData) : outcome unit * ThreadManager :=
  configureThreadManager (mThreadManager w) (mMultiThreadEnabled w)
    (mThreadManagerMode w) (mWrapperStructPose w) (mWrapperStructFace w)
    (mWrapperStructHand w) (mWrapperStructExtra w) (mWrapperStructInput w)
    (mWrapperStructOutput w) (mUserWs w) (mUserWsOnNewThread w).

(** How a function that returns nothing ends after its handler's report. *)
Definition after_report (what : string) (line : Z) (function : string) : outcome unit :=
  match error_raise what line function FILE with
  | Some what' => Throws what'
  | None => Returns tt
  end.

End Wrapper.

(** ** A thread manager to run the wrapper on *)

Module Spec.

(** Concrete data: a matrix is a number, a datum holds nothing else. *)
Definition Batch : Type := option (list (Datum nat unit)).

(** Modelled from the spec: the [ThreadManager] (section 4.4), which this
    header only uses.  It has the mode it was built with, a running flag, and
    the pipeline between its two ends, whose stages hand every batch on
    unchanged, seen as one bounded first-in first-out queue.  The transfer
    calls are legal only on an externally driven end: a call from the wrong
    end is a usage error.  This stand-in is sequential: a blocking call that
    would have to wait is ended as [stop()] ends it, and returns false. *)
Record Manager : Type := {
  mode : ThreadManagerMode;
  running : bool;
  capacity : nat;
  queue : list Batch
}.

Definition ctor (m : ThreadManagerMode) : Manager :=
  {| mode := m; running := false; capacity := 2; queue := [] |}.

Definition stopped (tm : Manager) : Manager :=
  {| mode := mode tm; running := false; capacity := capacity tm; queue := [] |}.

Definition started (tm : Manager) : Manager :=
  {| mode := mode tm; running := true; capacity := capacity tm; queue := queue tm |}.

Definition with_queue (q : list Batch) (tm : Manager) : Manager :=
  {| mode := mode tm; running := running tm; capacity := capacity tm; queue := q |}.

(** Modelled from the spec: the ends each mode leaves to the caller. *)
Definition input_external (m : ThreadManagerMode) : bool :=
  match m with
  | Asynchronous | AsynchronousIn => true
  | AsynchronousOut | Synchronous => false
  end.

Definition output_external (m : ThreadManagerMode) : bool :=
  match m with
  | Asynchronous | AsynchronousOut => true
  | AsynchronousIn | Synchronous => false
  end.

Definition wrong_end : string := "Not available for this ThreadManagerMode.".

(** Modelled from the spec: [stop()] is idempotent, ends the run and releases
    the queues; [reset()] brings the manager back to idle. *)
Definition stop (tm : Manager) : outcome unit * Manager :=
  (Returns tt, stopped tm).

Definition reset (tm : Manager) : outcome unit * Manager :=
  (Returns tt, stopped tm).

(** Modelled from the spec: [start()]; starting twice without a stop in
    between is a usage error. *)
Definition start (tm : Manager) : outcome unit * Manager :=
  if running tm then (Throws "The pipeline is already running.", tm)
  else (Returns tt, started tm).

(** Modelled from the spec: [exec()] returns when the pipeline has stopped. *)
Definition exec (tm : Manager) : outcome unit * Manager :=
  if running tm then (Throws "The pipeline is already running.", tm)
  else (Returns tt, stopped tm).

Definition isRunning (tm : Manager) : outcome bool := Returns (running tm).

(** Modelled from the spec: [tryEmplace], legal when the input end is
    externally driven; false if the queue is full or the manager not running.
    Emplacing moves the batch: the caller's pointer is left null. *)
Definition tryEmplace (tm : Manager) (d : Batch) :
    outcome bool * Manager * Batch :=
  if negb (input_external (mode tm)) then (Throws wrong_end, tm, d)
  else if running tm && (length (queue tm) <? capacity tm)%nat
       then (Returns true, with_queue (queue tm ++ [d])%list tm, None)
       else (Returns false, tm, d).

(** Modelled from the spec: [tryPush]; pushing copies the batch. *)
Definition tryPush (tm : Manager) (d : Batch) : outcome bool * Manager :=
  if negb (input_external (mode tm)) then (Throws wrong_end, tm)
  else if running tm && (length (queue tm) <? capacity tm)%nat
       then (Returns true, with_queue (queue tm ++ [d])%list tm)
       else (Returns false, tm).

(** Modelled from the spec: [tryPop], legal when the output end is externally
    driven; false if the queue is empty or the manager not running. *)
Definition tryPop (tm : Manager) (d : Batch) :
    outcome bool * Manager * Batch :=
  if negb (output_external (mode tm)) then (Throws wrong_end, tm, d)
  else match running tm, queue tm with
       | true, x :: q => (Returns true, with_queue q tm, x)
       | _, _ => (Returns false, tm, d)
       end.

(** Modelled from the spec: the blocking variants; where they would wait, the
    wait is ended by a stop and they return false. *)
Definition waitAndEmplace (tm : Manager) (d : Batch) :
    outcome bool * Manager * Batch :=
  if negb (input_external (mode tm)) then (Throws wrong_end, tm, d)
  else if running tm && (length (queue tm) <? capacity tm)%nat
       then (Returns true, with_queue (queue tm ++ [d])%list tm, None)
       else (Returns false, stopped tm, d).

Definition waitAndPush (tm : Manager) (d : Batch) : outcome bool * Manager :=
  if negb (input_external (mode tm)) then (Throws wrong_end, tm)
  else if running tm && (length (queue tm) <? capacity tm)%nat
       then (Returns true, with_queue (queue tm ++ [d])%list tm)
       else (Returns false, stopped tm).

Definition waitAndPop (tm : Manager) (d : Batch) :
    outcome bool * Manager * Batch :=
  if negb (output_external (mode tm)) then (Throws wrong_end, tm, d)
  else match running tm, queue tm with
       | true, x :: q => (Returns true, with_queue q tm, x)
       | _, _ => (Returns false, stopped tm, d)
       end.

(** The two ways a call of [error] can end, whatever its arguments. *)
Definition throwing (message : string) (line : Z) (function file : string) :
    option string := Some message.

Definition returning (message : string) (line : Z) (function file : string) :
    option string := None.

(** The wrapper's environment with this thread manager, numbers for workers,
    empty configuration structs, and [raise] for the way [error] ends. *)
Definition externals (raise : string -> Z -> string -> string -> option string) :
    Externals :=
  {| Mat := nat;
     DatumRest := unit;
     Worker := nat;
     ThreadManager := Manager;
     WrapperStructPose := unit;
     WrapperStructFace := unit;
     WrapperStructHand := unit;
     WrapperStructExtra := unit;
     WrapperStructInput := unit;
     WrapperStructOutput := unit;
     DatumRest_default := tt;
     Mat_default := 0%nat;
     WrapperStructPose_default := tt;
     WrapperStructFace_default := tt;
     WrapperStructHand_default := tt;
     WrapperStructExtra_default := tt;
     WrapperStructInput_default := tt;
     WrapperStructOutput_default := tt;
     error_raise := raise;
     tm_ctor := ctor;
     tm_reset := reset;
     tm_exec := exec;
     tm_start := start;
     tm_stop := stop;
     tm_isRunning := isRunning;
     tm_tryEmplace := tryEmplace;
     tm_waitAndEmplace := waitAndEmplace;
     tm_tryPush := tryPush;
     tm_waitAndPush := waitAndPush;
     tm_tryPop := tryPop;
     tm_waitAndPop := waitAndPop;
     configureThreadManager := fun tm _ _ _ _ _ _ _ _ _ _ => (Returns tt, tm) |}.

(** The environment in which every call of [error] throws, and the one in
    which every call of [error] returns. *)
Definition throws : Externals := externals throwing.

Definition returns : Externals := externals returning.

End Spec.

(** Concrete wrappers to run. *)
Module Run.

(** One frame: a batch of one datum holding the matrix [7]. *)
Definition frame : Spec.Batch := Some [ {| cvInputData := 7%nat; datumRest := tt |} ].

(** A wrapper just constructed, the caller holding one frame. *)
Definition fresh_frame (raise : string -> Z -> string -> string -> option string)
    (m : ThreadManagerMode) : @State (Spec.externals raise) :=
  @constructed (Spec.externals raise) m (fun _ => false) frame.

(** The same after [start()]. *)
Definition running_frame (raise : string -> Z -> string -> string -> option string)
    (m : ThreadManagerMode) : @State (Spec.externals raise) :=
  snd (@start (Spec.externals raise) (fresh_frame raise m)).

(** A wrapper with worker [1] registered for [workerType]. *)
Definition bound_frame (raise : string -> Z -> string -> string -> option string)
    (m : ThreadManagerMode) (workerType : WorkerType) : @State (Spec.externals raise) :=
  snd (@setWorker (Spec.externals raise) workerType (Some 1%nat) true (fresh_frame raise m)).

End Run.

(** The same environment with a thread manager that cannot be configured and
    cannot be stopped: [configureThreadManager] and [stop()] throw. *)
Module Faulty.

Definition configuration_failed : string := "No workers were configured.".

Definition stop_failed : string := "The threads could not be joined.".

Definition stop (tm : Spec.Manager) : outcome unit * Spec.Manager :=
  (Throws stop_failed, tm).

Definition externals (raise : string -> Z -> string -> string -> option string) :
    Externals :=
  {| Mat := nat;
     DatumRest := unit;
     Worker := nat;
     ThreadManager := Spec.Manager;
     WrapperStructPose := unit;
     WrapperStructFace := unit;
     WrapperStructHand := unit;
     WrapperStructExtra := unit;
     WrapperStructInput := unit;
     WrapperStructOutput := unit;
     DatumRest_default := tt;
     Mat_default := 0%nat;
     WrapperStructPose_default := tt;
     WrapperStructFace_default := tt;
     WrapperStructHand_default := tt;
     WrapperStructExtra_default := tt;
     WrapperStructInput_default := tt;
     WrapperStructOutput_default := tt;
     error_raise := raise;
     tm_ctor := Spec.ctor;
     tm_reset := Spec.reset;
     tm_exec := Spec.exec;
     tm_start := Spec.start;
     tm_stop := stop;
     tm_isRunning := Spec.isRunning;
     tm_tryEmplace := Spec.tryEmplace;
     tm_waitAndEmplace := Spec.waitAndEmplace;
     tm_tryPush := Spec.tryPush;
     tm_waitAndPush := Spec.waitAndPush;
     tm_tryPop := Spec.tryPop;
     tm_waitAndPop := Spec.waitAndPop;
     configureThreadManager :=
       fun tm _ _ _ _ _ _ _ _ _ _ => (Throws configuration_failed, tm) |}.

Definition throws : Externals := externals Spec.throwing.

Definition returns : Externals := externals Spec.returning.

(** A wrapper just constructed in this environment, worker [1] bound to
    [Input]. *)
Definition bound (raise : string -> Z -> string -> string -> option string) :
    @State (externals raise) :=
  snd (@setWorker (externals raise) Input (Some 1%nat) true
         (@constructed (externals raise) Asynchronous (fun _ => false) Run.frame)).

End Faulty.

(** * Properties *)

Section WrapperTheory.
Context {X : Externals}.
#[local] Existing Instance M_ret.
#[local] Existing Instance M_bind.

(** ** The monad *)

Lemma try_catch_returns {A : Type} (body : M A) (handler : string -> M A)
    (s s' : State) (a : A) :
  body s = (Returns a, s') -> try_catch body handler s = (Returns a, s').
Proof. intros H. unfold try_catch. now rewrite H. Qed.

Lemma try_catch_throws {A : Type} (body : M A) (handler : string -> M A)
    (s s' : State) (what : string) :
  body s = (Throws what, s') -> try_catch body handler s = handler what s'.
Proof. intros H. unfold try_catch. now rewrite H. Qed.

Lemma catch_false_run (line : Z) (function what : string) (s : State) :
  catch_false line function what s =
    (match error_raise what line function FILE with
     | Some what' => Throws what'
     | None => Returns false
     end,
     {| self := self s; tDatums := tDatums s;
        events := (events s ++ [EvError what line function FILE])%list |}).
Proof.
  unfold catch_false, mbind, M_bind, error, emit, mret, M_ret.
  now destruct (error_raise what line function FILE).
Qed.

(** ** [setWorker] *)

(** What [setWorker] does with a worker that is not null. *)
Lemma setWorker_not_null (workerType : WorkerType) (worker : Worker)
    (workerOnNewThread : bool) (s : State) :
  setWorker workerType (Some worker) workerOnNewThread s =
    (Returns tt,
     {| self :=
          set_mUserWsOnNewThread
            (<[int workerType := workerOnNewThread]> (mUserWsOnNewThread (self s)))
            (set_mUserWs
               (alter (fun v => (v ++ [Some worker])%list) (int workerType)
                  (<[int workerType := []]> (mUserWs (self s))))
               (self s));
        tDatums := tDatums s;
        events := events s |}).
Proof. reflexivity. Qed.

Lemma int_inj (a b : WorkerType) : int a = int b -> a = b.
Proof. now destruct a, b. Qed.

Lemma int_lt_Size (workerType : WorkerType) : (int workerType < Size)%nat.
Proof. destruct workerType; unfold Size; simpl; lia. Qed.

Lemma slot_after_setWorker (ws : list (list TWorker)) (i : nat) (worker : TWorker) :
  (i < length ws)%nat ->
  alter (fun v => (v ++ [worker])%list) i (<[i := []]> ws) !! i = Some [worker].
Proof.
  intros Hi. rewrite list_lookup_alter_eq, list_lookup_insert_eq by exact Hi.
  reflexivity.
Qed.

Lemma slot_other_after_setWorker (ws : list (list TWorker)) (i j : nat)
    (worker : TWorker) :
  i <> j ->
  alter (fun v => (v ++ [worker])%list) i (<[i := []]> ws) !! j = ws !! j.
Proof.
  intros Hij. rewrite list_lookup_alter_ne, list_lookup_insert_ne by exact Hij.
  reflexivity.
Qed.

(** C5.  After [setWorker(workerType, worker, workerOnNewThread)] with a worker
    that is not null, the slot of that role holds exactly the new worker,
    whatever it held before, the role's flag is [workerOnNewThread], and the
    slots and flags of all other roles are as they were; the call returns
    without a report. *)
Theorem setWorker_binds_exactly (s : State) (workerType : WorkerType)
    (worker : Worker) (workerOnNewThread : bool) :
  arrays_sized (self s) ->
  let r := setWorker workerType (Some worker) workerOnNewThread s in
  fst r = Returns tt /\
  mUserWs (self (snd r)) !! int workerType = Some [Some worker] /\
  mUserWsOnNewThread (self (snd r)) !! int workerType = Some workerOnNewThread /\
  (forall other : WorkerType, other <> workerType ->
     mUserWs (self (snd r)) !! int other = mUserWs (self s) !! int other /\
     mUserWsOnNewThread (self (snd r)) !! int other =
       mUserWsOnNewThread (self s) !! int other) /\
  arrays_sized (self (snd r)) /\
  events (snd r) = events s.
Proof.
  intros [Hws Hfs] r. subst r. rewrite setWorker_not_null. simpl.
  pose proof (int_lt_Size workerType) as Hlt.
  split; [reflexivity |]. split; [| split; [| split; [| split; [| reflexivity]]]].
  - apply slot_after_setWorker. rewrite Hws. exact Hlt.
  - apply list_lookup_insert_eq. rewrite Hfs. exact Hlt.
  - intros other Hother.
    assert (int workerType <> int other) as Hne
      by (intros E; apply Hother; symmetry; now apply int_inj).
    split.
    + now apply slot_other_after_setWorker.
    + now apply list_lookup_insert_ne.
  - unfold arrays_sized. simpl. now rewrite length_alter, !length_insert.
Qed.

(** C4, as the code has it.  Calling [setWorker] for a role that already has a
    worker bound, with a worker that is not null, is accepted: the call returns
    without any report, and the slot holds the new worker alone, the earlier
    binding being replaced. *)
Theorem setWorker_rebinding_accepted (s : State) (workerType : WorkerType)
    (bound : list TWorker) (worker : Worker) (workerOnNewThread : bool) :
  mUserWs (self s) !! int workerType = Some bound ->
  bound <> [] ->
  let r := setWorker workerType (Some worker) workerOnNewThread s in
  fst r = Returns tt /\
  events (snd r) = events s /\
  mUserWs (self (snd r)) !! int workerType = Some [Some worker].
Proof.
  intros Hbound _ r. subst r. rewrite setWorker_not_null. simpl.
  repeat split.
  apply slot_after_setWorker. eapply lookup_lt_Some. exact Hbound.
Qed.

(** C6.  With a null worker, [setWorker] makes the report "Your worker is a
    nullptr." and, [error] throwing there, nothing of the object is written:
    the lists of workers and the flags of every role are as before.  The
    handler reports the exception in turn, and the call ends as that second
    report ends. *)
Theorem setWorker_null_rejected (s : State) (workerType : WorkerType)
    (workerOnNewThread : bool) (what : string) :
  error_raise "Your worker is a nullptr." 281 FILE "setWorker" = Some what ->
  setWorker workerType None workerOnNewThread s =
    (match error_raise what 289 "setWorker" FILE with
     | Some what' => Throws what'
     | None => Returns tt
     end,
     {| self := self s;
        tDatums := tDatums s;
        events := (events s ++
                   [EvError "Your worker is a nullptr." 281 FILE "setWorker";
                    EvError what 289 "setWorker" FILE])%list |}).
Proof.
  intros Hraise.
  unfold setWorker, try_catch, mbind, M_bind, error, emit. simpl.
  rewrite Hraise. simpl. rewrite <- app_assoc. simpl.
  now destruct (error_raise what 289 "setWorker" FILE).
Qed.

(** ** The transfer calls *)

(** The [try] block of a transfer call when the checked slot is not empty and
    [error] throws: the report is the only thing that happens. *)
Lemma transfer_try_registered (t : TransferCall) (s : State) (what : string) :
  userWs_empty (transfer_end t) (self s) = false ->
  error_raise (guard_message t) (guard_line t) (function_name t) FILE = Some what ->
  op_try (OneEnd t) s =
    (Throws what,
     {| self := self s; tDatums := tDatums s;
        events := (events s ++
                   [EvError (guard_message t) (guard_line t) (function_name t) FILE])%list |}).
Proof.
  intros Hreg Hraise.
  destruct t; simpl in Hreg, Hraise |- *;
    unfold tryEmplace_try, waitAndEmplace_try, tryPush_try, waitAndPush_try,
      tryPop_try, waitAndPop_try, mbind, M_bind, get_self, error, emit;
    rewrite Hreg; simpl; now rewrite Hraise.
Qed.

(** The [try] block when the checked slot is empty: the forwarded call. *)
Lemma transfer_try_cleared (t : TransferCall) (s : State) :
  userWs_empty (transfer_end t) (self s) = true ->
  op_try (OneEnd t) s = forwarded t s.
Proof.
  intros Hclear.
  destruct t; simpl in Hclear |- *;
    unfold tryEmplace_try, waitAndEmplace_try, tryPush_try, waitAndPush_try,
      tryPop_try, waitAndPop_try, mbind, M_bind, get_self, mret, M_ret;
    rewrite Hclear; simpl; reflexivity.
Qed.

Lemma op_run_try_catch (op : TransferOp) :
  op_run op = try_catch (op_try op) (catch_false (op_catch_line op) (op_name op)).
Proof. destruct op as [[]|]; reflexivity. Qed.

Lemma transfer_when_registered (t : TransferCall) (s : State) :
  userWs_empty (transfer_end t) (self s) = false ->
  forall what : string,
    error_raise (guard_message t) (guard_line t) (function_name t) FILE = Some what ->
    transfer t s =
      (match error_raise what (catch_line t) (function_name t) FILE with
       | Some what' => Throws what'
       | None => Returns false
       end,
       {| self := self s; tDatums := tDatums s;
          events := (events s ++
                     [EvError (guard_message t) (guard_line t) (function_name t) FILE;
                      EvError what (catch_line t) (function_name t) FILE])%list |}).
Proof.
  intros Hreg what Hraise.
  change (transfer t) with (op_run (OneEnd t)). rewrite op_run_try_catch.
  rewrite (try_catch_throws _ _ _ _ _ (transfer_try_registered t s what Hreg Hraise)).
  rewrite catch_false_run. simpl. now rewrite <- app_assoc.
Qed.

Lemma transfer_when_cleared (t : TransferCall) (s : State) :
  userWs_empty (transfer_end t) (self s) = true ->
  transfer t s =
    try_catch (forwarded t) (catch_false (catch_line t) (function_name t)) s.
Proof.
  intros Hclear.
  change (transfer t) with (op_run (OneEnd t)). rewrite op_run_try_catch.
  unfold try_catch. now rewrite (transfer_try_cleared t s Hclear).
Qed.

(** C7, as the code has it.  When the [try] block of a transfer operation is
    left by an exception, the handler reports it through [error]; the
    operation returns false when that report returns, and it is left by the
    exception the report throws when it throws. *)
Theorem transfer_internal_error (op : TransferOp) (s s1 : State) (what : string) :
  op_try op s = (Throws what, s1) ->
  op_run op s =
    (match error_raise what (op_catch_line op) (op_name op) FILE with
     | Some what' => Throws what'
     | None => Returns false
     end,
     {| self := self s1; tDatums := tDatums s1;
        events := (events s1 ++
                   [EvError what (op_catch_line op) (op_name op) FILE])%list |}).
Proof.
  intros Htry. rewrite op_run_try_catch.
  rewrite (try_catch_throws _ _ _ _ _ Htry). apply catch_false_run.
Qed.

(** C1, as the code has it.  When the slot of the end a transfer call acts on
    holds a worker, the call makes its usage report and, [error] throwing
    there, does not reach the thread manager: the object and the caller's
    variable are as before, and the only events are that report and the
    handler's; the call returns false when the handler's report returns, and
    is left by the exception that report throws otherwise.  When the slot is
    empty the check does not fire: the call is the thread manager's, under the
    same handler.  A slot holds a worker once [setWorker] has registered one
    for its role. *)
Theorem transfer_excludes_registered_worker (t : TransferCall) (s : State) :
  (userWs_empty (transfer_end t) (self s) = false ->
   forall what : string,
     error_raise (guard_message t) (guard_line t) (function_name t) FILE = Some what ->
     transfer t s =
       (match error_raise what (catch_line t) (function_name t) FILE with
        | Some what' => Throws what'
        | None => Returns false
        end,
        {| self := self s; tDatums := tDatums s;
           events := (events s ++
                      [EvError (guard_message t) (guard_line t) (function_name t) FILE;
                       EvError what (catch_line t) (function_name t) FILE])%list |}))
  /\
  (userWs_empty (transfer_end t) (self s) = true ->
   transfer t s =
     try_catch (forwarded t) (catch_false (catch_line t) (function_name t)) s)
  /\
  (arrays_sized (self s) ->
   forall (worker : Worker) (workerOnNewThread : bool),
     userWs_empty (transfer_end t)
       (self (snd (setWorker (transfer_end t) (Some worker) workerOnNewThread s)))
     = false).
Proof.
  split; [| split].
  - apply transfer_when_registered.
  - apply transfer_when_cleared.
  - intros [Hws _] worker workerOnNewThread.
    rewrite setWorker_not_null. unfold userWs_empty. simpl.
    rewrite slot_after_setWorker; [reflexivity |].
    rewrite Hws. apply int_lt_Size.
Qed.

(** ** [emplaceAndPop] *)

(** C2.  [emplaceAndPop] runs [waitAndEmplace] first.  When that returns true
    it runs [waitAndPop] on the state [waitAndEmplace] left, and the value
    [waitAndPop] returns is its own; when it returns false, [emplaceAndPop]
    returns false in the very state [waitAndEmplace] left, so nothing of
    [waitAndPop] has run; when [waitAndEmplace] is left by an exception,
    only the handler runs; and when [waitAndEmplace] returns true and
    [waitAndPop] is left by an exception, the handler runs on the state
    [waitAndPop] left, so [emplaceAndPop] ends as the handler's report ends and
    never returns true. *)
Theorem emplaceAndPop_sequential (s s1 : State) :
  (waitAndEmplace s = (Returns true, s1) ->
   forall (popped : bool) (s2 : State),
     waitAndPop s1 = (Returns popped, s2) ->
     emplaceAndPop s = (Returns popped, s2))
  /\
  (waitAndEmplace s = (Returns false, s1) ->
   emplaceAndPop s = (Returns false, s1))
  /\
  (forall what : string,
     waitAndEmplace s = (Throws what, s1) ->
     emplaceAndPop s = catch_false 571 "emplaceAndPop" what s1)
  /\
  (waitAndEmplace s = (Returns true, s1) ->
   forall (what : string) (s2 : State),
     waitAndPop s1 = (Throws what, s2) ->
     emplaceAndPop s = catch_false 571 "emplaceAndPop" what s2 /\
     fst (emplaceAndPop s) <> Returns true).
Proof.
  unfold emplaceAndPop, emplaceAndPop_try, try_catch, mbind, M_bind.
  split; [| split; [| split]].
  - intros He popped s2 Hp. now rewrite He, Hp.
  - intros He. now rewrite He.
  - intros what He. now rewrite He.
  - intros He what s2 Hp. rewrite He, Hp. split; [reflexivity |].
    rewrite catch_false_run. simpl.
    now destruct (error_raise what 571 "emplaceAndPop" FILE).
Qed.

Lemma mode_blind_bind {A B : Type} (c : M A) (k : A -> M B) :
  mode_blind c -> (forall a, mode_blind (k a)) -> mode_blind (c ≫= k).
Proof.
  intros Hc Hk m s. unfold mbind, M_bind. rewrite Hc.
  destruct (c s) as [[a|what] s']; simpl; [apply Hk | reflexivity].
Qed.

Lemma mode_blind_try_catch {A : Type} (body : M A) (handler : string -> M A) :
  mode_blind body -> (forall what, mode_blind (handler what)) ->
  mode_blind (try_catch body handler).
Proof.
  intros Hb Hh m s. unfold try_catch. rewrite Hb.
  destruct (body s) as [[a|what] s']; simpl; [reflexivity | apply Hh].
Qed.

Lemma mode_blind_ret {A : Type} (a : A) : mode_blind (mret a).
Proof. intros m s. reflexivity. Qed.

Lemma mode_blind_error (message : string) (line : Z) (function file : string) :
  mode_blind (error message line function file).
Proof.
  intros m s. unfold error, emit. simpl.
  now destruct (error_raise message line function file).
Qed.

Lemma mode_blind_catch_false (line : Z) (function what : string) :
  mode_blind (catch_false line function what).
Proof.
  apply mode_blind_bind; [apply mode_blind_error | intros; apply mode_blind_ret].
Qed.

Lemma mode_blind_callTM_ref {A : Type} (c : TDatumsSP -> TMCall)
    (f : ThreadManager -> TDatumsSP -> outcome A * ThreadManager * TDatumsSP) :
  mode_blind (callTM_ref c f).
Proof.
  intros m s. unfold callTM_ref. simpl.
  now destruct (f (mThreadManager (self s)) (tDatums s)) as [[r tm'] d'].
Qed.

Lemma mode_blind_callTM_cref {A : Type} (c : TDatumsSP -> TMCall)
    (f : ThreadManager -> TDatumsSP -> outcome A * ThreadManager) :
  mode_blind (callTM_cref c f).
Proof.
  intros m s. unfold callTM_cref. simpl.
  now destruct (f (mThreadManager (self s)) (tDatums s)) as [r tm'].
Qed.

Lemma mode_blind_guarded {A : Type} (workerType : WorkerType) (message : string)
    (line : Z) (function : string) (k : M A) :
  mode_blind k ->
  mode_blind
    (w ← get_self;
     (if negb (userWs_empty workerType w)
      then error message line function FILE
      else mret tt);;
     k).
Proof.
  intros Hk m s. unfold mbind, M_bind, get_self.
  change (userWs_empty workerType (self (with_mode m s)))
    with (userWs_empty workerType (self s)).
  destruct (negb (userWs_empty workerType (self s))).
  - rewrite (mode_blind_error message line function FILE m s).
    destruct (error message line function FILE s) as [[[]|what] s']; simpl;
      [apply Hk | reflexivity].
  - unfold mret, M_ret. apply Hk.
Qed.

Lemma mode_blind_transfer (t : TransferCall) : mode_blind (transfer t).
Proof.
  destruct t; simpl;
    (apply mode_blind_try_catch;
       [ apply mode_blind_guarded;
           first [apply mode_blind_callTM_ref | apply mode_blind_callTM_cref]
       | intros; apply mode_blind_catch_false ]).
Qed.

Lemma mode_blind_emplaceAndPop : mode_blind emplaceAndPop.
Proof.
  apply mode_blind_try_catch; [| intros; apply mode_blind_catch_false].
  apply mode_blind_bind; [exact (mode_blind_transfer WaitAndEmplace) |].
  intros [|]; [exact (mode_blind_transfer WaitAndPop) | apply mode_blind_ret].
Qed.

(** ** What every member function preserves *)

Section Preserved.
Variable R : State -> State -> Prop.
Hypothesis R_refl : forall s, R s s.
Hypothesis R_trans : forall s1 s2 s3, R s1 s2 -> R s2 s3 -> R s1 s3.
Hypothesis R_events : forall s e,
  R s {| self := self s; tDatums := tDatums s; events := (events s ++ [e])%list |}.
Hypothesis R_tDatums : forall s d,
  R s {| self := self s; tDatums := d; events := events s |}.
Hypothesis R_mThreadManager : forall s tm,
  R s {| self := set_mThreadManager tm (self s); tDatums := tDatums s;
         events := events s |}.

Lemma preserved_ret {A : Type} (a : A) : preserved R (mret a).
Proof. intros s. apply R_refl. Qed.

Lemma preserved_bind {A B : Type} (c : M A) (k : A -> M B) :
  preserved R c -> (forall a, preserved R (k a)) -> preserved R (c ≫= k).
Proof.
  intros Hc Hk s. unfold mbind, M_bind. specialize (Hc s).
  destruct (c s) as [[a|what] s1]; simpl in *; [| exact Hc].
  eapply R_trans; [exact Hc | apply Hk].
Qed.

Lemma preserved_try_catch {A : Type} (body : M A) (handler : string -> M A) :
  preserved R body -> (forall what, preserved R (handler what)) ->
  preserved R (try_catch body handler).
Proof.
  intros Hb Hh s. unfold try_catch. specialize (Hb s).
  destruct (body s) as [[a|what] s1]; simpl in *; [exact Hb |].
  eapply R_trans; [exact Hb | apply Hh].
Qed.

(** Once [c] has run, what is left of [try { c; k } catch { handler }]
    preserves [R] from the state [c] left. *)
Lemma preserved_after {A B : Type} (c : M A) (k : A -> M B)
    (handler : string -> M B) (s : State) :
  (forall a, preserved R (k a)) -> (forall what, preserved R (handler what)) ->
  R (snd (c s)) (snd (try_catch (c ≫= k) handler s)).
Proof.
  intros Hk Hh. unfold try_catch, mbind, M_bind.
  destruct (c s) as [[a|what] s1]; simpl; [| apply Hh].
  specialize (Hk a s1).
  destruct (k a s1) as [[b|what] s2]; simpl in *; [exact Hk |].
  eapply R_trans; [exact Hk | apply Hh].
Qed.

Lemma preserved_emit (e : Event) : preserved R (emit e).
Proof. intros s. apply R_events. Qed.

Lemma preserved_error (message : string) (line : Z) (function file : string) :
  preserved R (error message line function file).
Proof.
  intros s. unfold error, emit.
  destruct (error_raise message line function file); apply R_events.
Qed.

Lemma preserved_catch_false (line : Z) (function what : string) :
  preserved R (catch_false line function what).
Proof.
  apply preserved_bind; [apply preserved_error | intros; apply preserved_ret].
Qed.

Lemma preserved_callTM {A : Type} (c : TMCall)
    (f : ThreadManager -> outcome A * ThreadManager) :
  preserved R (callTM c f).
Proof.
  intros s. unfold callTM.
  destruct (f (mThreadManager (self s))) as [r tm']. simpl.
  eapply R_trans; [apply (R_mThreadManager s tm') |].
  exact (R_events {| self := set_mThreadManager tm' (self s); tDatums := tDatums s;
                     events := events s |} (EvCall c)).
Qed.

Lemma preserved_callTM_cref {A : Type} (c : TDatumsSP -> TMCall)
    (f : ThreadManager -> TDatumsSP -> outcome A * ThreadManager) :
  preserved R (callTM_cref c f).
Proof.
  intros s. unfold callTM_cref.
  destruct (f (mThreadManager (self s)) (tDatums s)) as [r tm']. simpl.
  eapply R_trans; [apply (R_mThreadManager s tm') |].
  exact (R_events {| self := set_mThreadManager tm' (self s); tDatums := tDatums s;
                     events := events s |} (EvCall (c (tDatums s)))).
Qed.

Lemma preserved_callTM_ref {A : Type} (c : TDatumsSP -> TMCall)
    (f : ThreadManager -> TDatumsSP -> outcome A * ThreadManager * TDatumsSP) :
  preserved R (callTM_ref c f).
Proof.
  intros s. unfold callTM_ref.
  destruct (f (mThreadManager (self s)) (tDatums s)) as [[r tm'] d']. simpl.
  eapply R_trans; [apply (R_mThreadManager s tm') |].
  eapply R_trans;
    [exact (R_events {| self := set_mThreadManager tm' (self s); tDatums := tDatums s;
                        events := events s |} (EvCall (c (tDatums s)))) |].
  exact (R_tDatums {| self := set_mThreadManager tm' (self s); tDatums := tDatums s;
                      events := (events s ++ [EvCall (c (tDatums s))])%list |} d').
Qed.

Lemma preserved_guarded {A : Type} (workerType : WorkerType) (message : string)
    (line : Z) (function : string) (k : M A) :
  preserved R k ->
  preserved R
    (w ← get_self;
     (if negb (userWs_empty workerType w)
      then error message line function FILE
      else mret tt);;
     k).
Proof.
  intros Hk. apply preserved_bind; [intros s; apply R_refl |].
  intros w. apply preserved_bind; [| intros; exact Hk].
  destruct (negb (userWs_empty workerType w));
    [apply preserved_error | apply preserved_ret].
Qed.

Lemma preserved_transfer (t : TransferCall) : preserved R (transfer t).
Proof.
  destruct t; simpl;
    (apply preserved_try_catch;
       [ apply preserved_guarded;
           first [apply preserved_callTM_ref | apply preserved_callTM_cref]
       | intros; apply preserved_catch_false ]).
Qed.

Lemma preserved_emplaceAndPop : preserved R emplaceAndPop.
Proof.
  apply preserved_try_catch; [| intros; apply preserved_catch_false].
  apply preserved_bind; [exact (preserved_transfer WaitAndEmplace) |].
  intros [|]; [exact (preserved_transfer WaitAndPop) | apply preserved_ret].
Qed.

Lemma preserved_op_run (op : TransferOp) : preserved R (op_run op).
Proof. destruct op; [apply preserved_transfer | apply preserved_emplaceAndPop]. Qed.

Lemma preserved_with_local {A : Type} (local : TDatumsSP) (callee : M A) :
  preserved R callee -> preserved R (with_local local callee).
Proof.
  intros Hc s. unfold with_local.
  pose proof (Hc {| self := self s; tDatums := local; events := events s |}) as H.
  destruct (callee _) as [[a|what] s1]; simpl in *;
    (eapply R_trans; [apply (R_tDatums s local) |];
     eapply R_trans; [exact H | apply R_tDatums]).
Qed.

Lemma preserved_emplaceAndPop_cvMat (cvMat : Mat) :
  preserved R (emplaceAndPop_cvMat cvMat).
Proof.
  apply preserved_try_catch.
  - apply preserved_bind; [| intros; apply preserved_ret].
    apply preserved_with_local, preserved_emplaceAndPop.
  - intros. apply preserved_bind; [apply preserved_error | intros; apply preserved_ret].
Qed.

Lemma preserved_stop : preserved R stop.
Proof.
  apply preserved_try_catch; [apply preserved_callTM | intros; apply preserved_error].
Qed.

Lemma preserved_isRunning : preserved R isRunning.
Proof.
  apply preserved_try_catch; [apply preserved_callTM |].
  intros. apply preserved_bind; [apply preserved_error | intros; apply preserved_ret].
Qed.

Lemma preserved_call_configureThreadManager : preserved R call_configureThreadManager.
Proof.
  apply preserved_bind; [intros s; apply R_refl | intros; apply preserved_callTM].
Qed.

Lemma preserved_exec : preserved R exec.
Proof.
  apply preserved_try_catch; [| intros; apply preserved_error].
  apply preserved_bind; [apply preserved_call_configureThreadManager |].
  intros. apply preserved_bind; [apply preserved_emit | intros; apply preserved_callTM].
Qed.

Lemma preserved_start : preserved R start.
Proof.
  apply preserved_try_catch; [| intros; apply preserved_error].
  apply preserved_bind; [apply preserved_call_configureThreadManager |].
  intros. apply preserved_bind; [apply preserved_emit | intros; apply preserved_callTM].
Qed.

(** A write to the members preserves [R] when the written object does. *)
Lemma preserved_modify_self (f : WrapperData -> WrapperData) :
  (forall s, R s {| self := f (self s); tDatums := tDatums s; events := events s |}) ->
  preserved R (modify_self f).
Proof. intros Hf s. apply Hf. Qed.

End Preserved.

(** ** The stored mode *)

Lemma same_mode_refl (s : State) : same_mode s s.
Proof. reflexivity. Qed.

Lemma same_mode_trans (s1 s2 s3 : State) :
  same_mode s1 s2 -> same_mode s2 s3 -> same_mode s1 s3.
Proof. unfold same_mode. congruence. Qed.

(** The instance of a preservation lemma at [same_mode]. *)
Ltac keeps_mode lem :=
  apply (lem same_mode);
  first [exact same_mode_refl | exact same_mode_trans | intros; reflexivity].

Lemma modify_self_same_mode (f : WrapperData -> WrapperData) :
  (forall w, mThreadManagerMode (f w) = mThreadManagerMode w) ->
  preserved same_mode (modify_self f).
Proof. intros Hf s. apply Hf. Qed.

Lemma error_same_mode (message : string) (line : Z) (function file : string) :
  preserved same_mode (error message line function file).
Proof.
  intros s. unfold error, emit, same_mode.
  now destruct (error_raise message line function file).
Qed.

Lemma configuring_same_mode (f : WrapperData -> WrapperData) (line : Z)
    (function : string) :
  (forall w, mThreadManagerMode (f w) = mThreadManagerMode w) ->
  preserved same_mode
    (try_catch (modify_self f) (fun what => error what line function FILE)).
Proof.
  intros Hf. apply (preserved_try_catch same_mode same_mode_trans).
  - now apply modify_self_same_mode.
  - intros. apply error_same_mode.
Qed.

Lemma setWorker_same_mode (workerType : WorkerType) (worker : TWorker)
    (workerOnNewThread : bool) :
  preserved same_mode (setWorker workerType worker workerOnNewThread).
Proof.
  apply (preserved_try_catch same_mode same_mode_trans);
    [| intros; apply error_same_mode].
  apply (preserved_bind same_mode same_mode_trans).
  - destruct worker; [intros s; reflexivity | apply error_same_mode].
  - intros _. apply (preserved_bind same_mode same_mode_trans);
      [now apply modify_self_same_mode |].
    intros _. apply (preserved_bind same_mode same_mode_trans);
      [now apply modify_self_same_mode |].
    intros _. now apply modify_self_same_mode.
Qed.

Lemma run_call_same_mode (c : Call) (s : State) : same_mode s (run_call c s).
Proof.
  destruct c; cbn [run_call]; revert s;
    match goal with
    | |- forall s, same_mode s (snd (?f s)) => change (preserved same_mode f)
    end.
  - unfold disableMultiThreading. now apply configuring_same_mode.
  - apply setWorker_same_mode.
  - unfold configure. now apply configuring_same_mode.
  - unfold configure_Face. now apply configuring_same_mode.
  - unfold configure_Hand. now apply configuring_same_mode.
  - unfold configure_Extra. now apply configuring_same_mode.
  - unfold configure_Input. now apply configuring_same_mode.
  - unfold configure_Output. now apply configuring_same_mode.
  - keeps_mode preserved_exec.
  - keeps_mode preserved_start.
  - keeps_mode preserved_stop.
  - keeps_mode preserved_isRunning.
  - keeps_mode preserved_op_run.
  - keeps_mode preserved_emplaceAndPop_cvMat.
  - intros s. reflexivity.
Qed.

Lemma run_calls_same_mode (cs : list Call) (s : State) : same_mode s (run_calls cs s).
Proof.
  revert s. induction cs as [|c cs IH]; intros s; simpl.
  - apply same_mode_refl.
  - eapply same_mode_trans; [apply run_call_same_mode | apply IH].
Qed.

Lemma Wrapper_dtor_same_mode : preserved same_mode Wrapper_dtor.
Proof.
  apply (preserved_try_catch same_mode same_mode_trans);
    [| intros; apply error_same_mode].
  apply (preserved_bind same_mode same_mode_trans);
    [keeps_mode preserved_stop |].
  intros _. apply (preserved_bind same_mode same_mode_trans);
    [keeps_mode preserved_callTM |].
  intros _. now apply modify_self_same_mode.
Qed.

(** C9.  The stored mode is the constructor's argument for the whole life of
    the object: after any sequence of calls of the interface, however each of
    them ended, and still after the destructor has run. *)
Theorem mode_fixed_at_construction (threadManagerMode : ThreadManagerMode)
    (uninit : nat -> bool) (d : TDatumsSP) (calls : list Call) :
  let s := run_calls calls (constructed threadManagerMode uninit d) in
  mThreadManagerMode (self s) = threadManagerMode /\
  mThreadManagerMode (self (snd (Wrapper_dtor s))) = threadManagerMode.
Proof.
  intros s.
  assert (mThreadManagerMode (self s) = threadManagerMode) as Hs
    by apply (run_calls_same_mode calls (constructed threadManagerMode uninit d)).
  split; [exact Hs |].
  rewrite <- Hs. apply Wrapper_dtor_same_mode.
Qed.

(** ** The events of a call *)

Lemma events_continue_refl (s : State) : events_continue s s.
Proof. unfold events_continue. reflexivity. Qed.

Lemma events_continue_trans (s1 s2 s3 : State) :
  events_continue s1 s2 -> events_continue s2 s3 -> events_continue s1 s3.
Proof. unfold events_continue. intros H12 H23. now transitivity (events s2). Qed.

Lemma events_continue_emit (s : State) (e : Event) :
  events_continue s
    {| self := self s; tDatums := tDatums s; events := (events s ++ [e])%list |}.
Proof. unfold events_continue. simpl. now apply prefix_app_r. Qed.

Ltac continues lem :=
  apply (lem events_continue);
  first [ exact events_continue_refl | exact events_continue_trans
        | exact events_continue_emit
        | intros; unfold events_continue; simpl; reflexivity ].

(** With no Input worker, [waitAndEmplace] starts by calling the thread
    manager with the caller's batch. *)
Lemma waitAndEmplace_hands_over (s : State) :
  userWs_empty Input (self s) = true ->
  (events s ++ [EvCall (TmWaitAndEmplace (tDatums s))])%list
    `prefix_of` events (snd (waitAndEmplace s)).
Proof.
  intros Hclear.
  change waitAndEmplace with (transfer WaitAndEmplace).
  rewrite (transfer_when_cleared WaitAndEmplace s Hclear).
  unfold try_catch. simpl forwarded. unfold callTM_ref.
  destruct (tm_waitAndEmplace (mThreadManager (self s)) (tDatums s))
    as [[[b|what] tm'] d']; simpl; [reflexivity |].
  rewrite catch_false_run. simpl. now apply prefix_app_r.
Qed.

(** X15.  [emplaceAndPop] never reads the stored synchronization mode: it
    behaves the same whatever mode is stored in the object, and with no Input
    worker registered it always starts by handing the caller's batch to the
    thread manager's [waitAndEmplace]. *)
Theorem emplaceAndPop_makes_no_mode_check (s : State) :
  (forall m : ThreadManagerMode,
     emplaceAndPop (with_mode m s) =
       (fst (emplaceAndPop s), with_mode m (snd (emplaceAndPop s))))
  /\
  (userWs_empty Input (self s) = true ->
   (events s ++ [EvCall (TmWaitAndEmplace (tDatums s))])%list
     `prefix_of` events (snd (emplaceAndPop s))).
Proof.
  split.
  - intros m. apply mode_blind_emplaceAndPop.
  - intros Hclear.
    transitivity (events (snd (waitAndEmplace s)));
      [now apply waitAndEmplace_hands_over |].
    change (events_continue (snd (waitAndEmplace s)) (snd (emplaceAndPop s))).
    unfold emplaceAndPop, emplaceAndPop_try.
    apply (preserved_after events_continue events_continue_trans).
    + intros [|]; [| continues preserved_ret].
      change (preserved events_continue (transfer WaitAndPop)).
      continues preserved_transfer.
    + intros what. continues preserved_catch_false.
Qed.

(** ** [emplaceAndPop(const cv::Mat&)] *)

(** C8, as the code has it.  [emplaceAndPop(cvMat)] runs [emplaceAndPop] on a
    variable holding a batch of exactly one datum, default-constructed but for
    [cvInputData], which is [cvMat]; when that call returns, with either
    boolean, the result is the content of the variable after the call,
    whatever the call left there: the boolean appears nowhere in the result.
    The caller's own variable is untouched. *)
Theorem emplaceAndPop_cvMat_returns_variable (cvMat : Mat) (s s' : State)
    (transferred : bool) :
  emplaceAndPop
    {| self := self s;
       tDatums := Some [ {| cvInputData := cvMat; datumRest := DatumRest_default |} ];
       events := events s |} = (Returns transferred, s') ->
  emplaceAndPop_cvMat cvMat s =
    (Returns (tDatums s'),
     {| self := self s'; tDatums := tDatums s; events := events s' |}).
Proof.
  intros Hcall.
  unfold emplaceAndPop_cvMat, try_catch, mbind, M_bind, with_local.
  simpl alter. unfold set_cvInputData, Datum_default. simpl.
  now rewrite Hcall.
Qed.

(** ** The destructor *)

(** C10.  When the thread manager's [stop()] and [reset()] return, the
    destructor does what [stop()] does, calling [stop()] on the thread manager
    first, then resets the thread manager and empties the slot of every role:
    no registration is left, and the calls made on the thread manager are
    [stop()] and [reset()], in this order. *)
Theorem destructor_tears_down (s : State) (tm1 tm2 : ThreadManager) :
  tm_stop (mThreadManager (self s)) = (Returns tt, tm1) ->
  tm_reset tm1 = (Returns tt, tm2) ->
  let after_stop := stop s in
  let after := Wrapper_dtor s in
  fst after_stop = Returns tt /\
  mThreadManager (self (snd after_stop)) = tm1 /\
  events (snd after_stop) = (events s ++ [EvCall TmStop])%list /\
  fst after = Returns tt /\
  mThreadManager (self (snd after)) = tm2 /\
  events (snd after) = (events s ++ [EvCall TmStop; EvCall TmReset])%list /\
  length (mUserWs (self (snd after))) = length (mUserWs (self s)) /\
  (forall (i : nat) (userW : list TWorker),
     mUserWs (self (snd after)) !! i = Some userW -> userW = []).
Proof.
  intros Hstop Hreset after_stop after. subst after_stop after.
  unfold Wrapper_dtor, stop, try_catch, mbind, M_bind, callTM, modify_self,
    get_self, put_self.
  simpl. rewrite Hstop. simpl. rewrite Hreset. simpl.
  rewrite <- app_assoc. simpl.
  repeat split.
  - apply length_fmap.
  - intros i userW Hi. rewrite list_lookup_fmap in Hi.
    destruct (mUserWs (self s) !! i); simpl in Hi; congruence.
Qed.

End WrapperTheory.

(** * The wrapper run on the modelled thread manager *)

(** C5 at a fresh wrapper: binding worker [9] to [PostProcessing]. *)
Lemma setWorker_binds_exactly_witness :
  arrays_sized (self (Run.fresh_frame Spec.throwing Synchronous)) /\
  mUserWs (self (snd (@setWorker Spec.throws PostProcessing (Some 9%nat) false
                        (Run.fresh_frame Spec.throwing Synchronous))))
    !! int PostProcessing = Some [Some 9%nat].
Proof.
  assert (arrays_sized (self (Run.fresh_frame Spec.throwing Synchronous))) as Hs
    by (split; reflexivity).
  split; [exact Hs |].
  exact (proj1 (proj2 (@setWorker_binds_exactly Spec.throws
                         (Run.fresh_frame Spec.throwing Synchronous)
                         PostProcessing 9%nat false Hs))).
Defined.

(** C4 refuted: worker [1] is bound to [Input]; [setWorker(Input, 2, false)]
    returns, no report is made, and the slot holds worker [2] alone. *)
Lemma setWorker_twice_replaces :
  let s := Run.bound_frame Spec.throwing Synchronous Input in
  let r := @setWorker Spec.throws Input (Some 2%nat) false s in
  mUserWs (self s) !! int Input = Some [Some 1%nat] /\
  fst r = Returns tt /\
  events (snd r) = [] /\
  mUserWs (self (snd r)) !! int Input = Some [Some 2%nat].
Proof. repeat split. Qed.

(** C4 as amended, at the same wrapper. *)
Lemma setWorker_rebinding_accepted_witness :
  let s := Run.bound_frame Spec.throwing Synchronous Input in
  mUserWs (self s) !! int Input = Some [Some 1%nat] /\
  [Some 1%nat] <> [] /\
  mUserWs (self (snd (@setWorker Spec.throws Input (Some 2%nat) false s)))
    !! int Input = Some [Some 2%nat].
Proof.
  intros s.
  assert (mUserWs (self s) !! int Input = Some [Some 1%nat]) as Hbound by reflexivity.
  assert ([Some 1%nat] <> ([] : list (option nat))) as Hne by discriminate.
  split; [exact Hbound |]. split; [exact Hne |].
  exact (proj2 (proj2 (@setWorker_rebinding_accepted Spec.throws s Input
                         [Some 1%nat] 2%nat false Hbound Hne))).
Defined.

(** C6 at a fresh wrapper, [error] throwing. *)
Lemma setWorker_null_rejected_witness :
  let s := Run.fresh_frame Spec.throwing Synchronous in
  @error_raise Spec.throws "Your worker is a nullptr." 281 FILE "setWorker"
    = Some "Your worker is a nullptr." /\
  fst (@setWorker Spec.throws Output None true s) = Throws "Your worker is a nullptr." /\
  self (snd (@setWorker Spec.throws Output None true s)) = self s.
Proof.
  intros s. split; [reflexivity |].
  rewrite (@setWorker_null_rejected Spec.throws s Output true
             "Your worker is a nullptr." eq_refl).
  split; reflexivity.
Defined.

(** C1 refuted: with worker [1] bound to [Input] and [error] throwing,
    [tryEmplace] is left by the exception its handler's report throws; it does
    not return false.  And were [error] to return, the check would stop
    nothing: on the running wrapper [tryEmplace] returns true and the frame is
    in the thread manager's queue. *)
Lemma tryEmplace_rejection_throws :
  let s := Run.bound_frame Spec.throwing Asynchronous Input in
  let s' := snd (@start Spec.returns (Run.bound_frame Spec.returning Asynchronous Input)) in
  (userWs_empty Input (self s) = false /\
   fst (@tryEmplace Spec.throws s) =
     Throws "Emplace cannot be called if an input worker was already selected." /\
   fst (@tryEmplace Spec.throws s) <> Returns false) /\
  (userWs_empty Input (self s') = false /\
   fst (@tryEmplace Spec.returns s') = Returns true /\
   Spec.queue (mThreadManager (self (snd (@tryEmplace Spec.returns s')))) = [Run.frame]).
Proof. repeat split. discriminate. Qed.

(** C1 as amended: the same call, and [tryEmplace] on a running wrapper
    without Input worker, which the thread manager accepts. *)
Lemma transfer_excludes_registered_worker_witness :
  let s := Run.bound_frame Spec.throwing Asynchronous Input in
  let s0 := Run.running_frame Spec.throwing Asynchronous in
  (userWs_empty Input (self s) = false /\
   @transfer Spec.throws TryEmplace s =
     (Throws "Emplace cannot be called if an input worker was already selected.",
      {| self := self s; tDatums := tDatums s;
         events :=
           [EvError "Emplace cannot be called if an input worker was already selected."
              464 "tryEmplace" FILE;
            EvError "Emplace cannot be called if an input worker was already selected."
              469 "tryEmplace" FILE] |})) /\
  (userWs_empty Input (self s0) = true /\
   fst (@transfer Spec.throws TryEmplace s0) = Returns true) /\
  (arrays_sized (self s0) /\
   userWs_empty Input
     (self (snd (@setWorker Spec.throws Input (Some 3%nat) true s0))) = false).
Proof.
  intros s s0.
  assert (arrays_sized (self s0)) as Hsized by (split; reflexivity).
  split; [| split]; (split; [first [reflexivity | exact Hsized] |]).
  - exact (proj1 (@transfer_excludes_registered_worker Spec.throws TryEmplace s)
             eq_refl _ eq_refl).
  - rewrite (proj1 (proj2 (@transfer_excludes_registered_worker Spec.throws
                               TryEmplace s0)) eq_refl).
    reflexivity.
  - exact (proj2 (proj2 (@transfer_excludes_registered_worker Spec.throws
                           TryEmplace s0)) Hsized 3%nat true).
Defined.

(** Why the runs below take [error] to throw: were it to return, the security
    check of [setWorker] would stop nothing, and a null worker would be
    registered. *)
Lemma returning_error_admits_null_worker :
  let s := Run.fresh_frame Spec.returning Synchronous in
  let r := @setWorker Spec.returns Input None true s in
  fst r = Returns tt /\
  mUserWs (self (snd r)) = [[None]; []; []; []].
Proof. repeat split. Qed.

(** C7 refuted: in [Synchronous] mode the thread manager rejects [tryEmplace]
    with an exception; the wrapper's handler reports it, the report throws,
    and the exception leaves [tryEmplace]. *)
Lemma tryEmplace_internal_error_escapes :
  let s := Run.running_frame Spec.throwing Synchronous in
  fst (@tryEmplace_try Spec.throws s) = Throws Spec.wrong_end /\
  fst (@tryEmplace Spec.throws s) = Throws Spec.wrong_end /\
  fst (@tryEmplace Spec.throws s) <> Returns false.
Proof. repeat split. discriminate. Qed.

(** C7 as amended, at the same call, and at the same call when the report
    returns. *)
Lemma transfer_internal_error_witness :
  let s := Run.running_frame Spec.throwing Synchronous in
  let s' := Run.running_frame Spec.returning Synchronous in
  (@op_try Spec.throws (OneEnd TryEmplace) s =
     (Throws Spec.wrong_end, snd (@op_try Spec.throws (OneEnd TryEmplace) s)) /\
   fst (@op_run Spec.throws (OneEnd TryEmplace) s) = Throws Spec.wrong_end) /\
  (@op_try Spec.returns (OneEnd TryEmplace) s' =
     (Throws Spec.wrong_end, snd (@op_try Spec.returns (OneEnd TryEmplace) s')) /\
   fst (@op_run Spec.returns (OneEnd TryEmplace) s') = Returns false).
Proof.
  intros s s'. split; (split; [reflexivity |]).
  - rewrite (@transfer_internal_error Spec.throws (OneEnd TryEmplace) s _ _ eq_refl).
    reflexivity.
  - rewrite (@transfer_internal_error Spec.returns (OneEnd TryEmplace) s' _ _ eq_refl).
    reflexivity.
Defined.

(** C2 on the ways the two calls can end: on a running asynchronous wrapper
    [waitAndEmplace] returns true and the frame comes back through
    [waitAndPop]; on a wrapper not started it returns false; in [Synchronous]
    mode it is left by an exception; and with a worker bound to [Output] it
    returns true and [waitAndPop] is left by an exception. *)
Lemma emplaceAndPop_sequential_witness :
  let sa := Run.running_frame Spec.throwing Asynchronous in
  let sb := Run.fresh_frame Spec.throwing Asynchronous in
  let sc := Run.running_frame Spec.throwing Synchronous in
  let sd := snd (@start Spec.throws (Run.bound_frame Spec.throwing Asynchronous Output)) in
  (fst (@waitAndEmplace Spec.throws sa) = Returns true /\
   fst (@waitAndPop Spec.throws (snd (@waitAndEmplace Spec.throws sa))) = Returns true /\
   fst (@emplaceAndPop Spec.throws sa) = Returns true /\
   tDatums (snd (@emplaceAndPop Spec.throws sa)) = Run.frame) /\
  (fst (@waitAndEmplace Spec.throws sb) = Returns false /\
   @emplaceAndPop Spec.throws sb = (Returns false, snd (@waitAndEmplace Spec.throws sb))) /\
  (fst (@waitAndEmplace Spec.throws sc) = Throws Spec.wrong_end /\
   fst (@emplaceAndPop Spec.throws sc) = Throws Spec.wrong_end) /\
  (fst (@waitAndEmplace Spec.throws sd) = Returns true /\
   fst (@waitAndPop Spec.throws (snd (@waitAndEmplace Spec.throws sd))) =
     Throws "Pop cannot be called if an output worker was already selected." /\
   fst (@emplaceAndPop Spec.throws sd) =
     Throws "Pop cannot be called if an output worker was already selected.").
Proof.
  intros sa sb sc sd. split; [| split; [| split]].
  - split; [reflexivity |]. split; [reflexivity |].
    rewrite (proj1 (@emplaceAndPop_sequential Spec.throws sa _) eq_refl _ _ eq_refl).
    split; reflexivity.
  - split; [reflexivity |].
    exact (proj1 (proj2 (@emplaceAndPop_sequential Spec.throws sb _)) eq_refl).
  - split; [reflexivity |].
    rewrite (proj1 (proj2 (proj2 (@emplaceAndPop_sequential Spec.throws sc _)))
               _ eq_refl).
    reflexivity.
  - assert (@waitAndEmplace Spec.throws sd =
            (Returns true, snd (@waitAndEmplace Spec.throws sd))) as He
      by (vm_compute; reflexivity).
    assert (@waitAndPop Spec.throws (snd (@waitAndEmplace Spec.throws sd)) =
            (Throws "Pop cannot be called if an output worker was already selected.",
             snd (@waitAndPop Spec.throws (snd (@waitAndEmplace Spec.throws sd))))) as Hp
      by (vm_compute; reflexivity).
    split; [vm_compute; reflexivity |]. split; [vm_compute; reflexivity |].
    rewrite (proj1 (proj2 (proj2 (proj2 (@emplaceAndPop_sequential Spec.throws sd _)))
                      He _ _ Hp)).
    vm_compute. reflexivity.
Defined.

(** Case analysis on every way a report can end. *)
Ltac by_reports raise :=
  repeat match goal with
         | |- context [raise ?a ?b ?c ?d] => destruct (raise a b c d); simpl
         end.

(** C3, as the code has it, on the thread manager of the specification, whose
    transfer calls are checked against the mode, and for every way [error] can
    end.  In a wrapper whose mode leaves the input end to the runtime,
    [Synchronous] or [AsynchronousOut], every call of [emplaceAndPop] is
    rejected with a usage error and without any transfer: it does not return
    true, the object, thread manager included, and the caller's batch are
    unchanged, a report is made in [waitAndEmplace], and [waitAndPop] does not
    reach the thread manager.  In [AsynchronousIn] mode it is not rejected
    before a transfer: with no Input worker, on a running thread manager with
    room in its queue, the batch is emplaced, the caller's variable is left
    null, and only then is the pop rejected, with a report in [waitAndPop]. *)
Theorem emplaceAndPop_rejected_by_mode
    (raise : string -> Z -> string -> string -> option string)
    (s : @State (Spec.externals raise)) :
  Spec.mode (mThreadManager (self s)) = mThreadManagerMode (self s) ->
  (mThreadManagerMode (self s) = Synchronous \/
   mThreadManagerMode (self s) = AsynchronousOut ->
   let r := @emplaceAndPop (Spec.externals raise) s in
   fst r <> Returns true /\
   self (snd r) = self s /\
   tDatums (snd r) = tDatums s /\
   exists (what : string) (later : list Event),
     events (snd r) = (events s ++ later)%list /\
     In (EvError what 486 "waitAndEmplace" FILE) later /\
     forall d, ~ In (EvCall (TmWaitAndPop d)) later)
  /\
  (mThreadManagerMode (self s) = AsynchronousIn ->
   userWs_empty Input (self s) = true ->
   Spec.running (mThreadManager (self s)) = true ->
   (length (Spec.queue (mThreadManager (self s)))
      < Spec.capacity (mThreadManager (self s)))%nat ->
   let r := @emplaceAndPop (Spec.externals raise) s in
   fst r <> Returns true /\
   mThreadManager (self (snd r)) =
     Spec.with_queue (Spec.queue (mThreadManager (self s)) ++ [tDatums s])%list
       (mThreadManager (self s)) /\
   tDatums (snd r) = None /\
   exists (what : string) (later : list Event),
     events (snd r) =
       (events s ++ EvCall (TmWaitAndEmplace (tDatums s)) :: later)%list /\
     In (EvError what 554 "waitAndPop" FILE) later).
Proof.
  destruct s as [w d ev]. destruct w as [m tm mt sp sf sh se si so fs ws].
  destruct tm as [tmode run cap q]. simpl. intros ->. split.
  - intros Hm.
    unfold emplaceAndPop, emplaceAndPop_try, waitAndEmplace, waitAndEmplace_try,
      try_catch, catch_false, mbind, M_bind, get_self, error, emit, callTM_ref,
      mret, M_ret, userWs_empty.
    destruct Hm as [-> | ->]; simpl;
      (destruct (ws !! 0%nat) as [[|? ?]|]; simpl; by_reports raise; simpl);
      (split; [intros Hf; discriminate Hf |]; split; [reflexivity |]; split; [reflexivity |];
       eexists _, _; split; [rewrite <- ?app_assoc; reflexivity |];
       split; [simpl; tauto |];
       intros d0 Hd; simpl in Hd; intuition discriminate).
  - intros -> Hempty -> Hroom. apply Nat.ltb_lt in Hroom.
    unfold emplaceAndPop, emplaceAndPop_try, waitAndEmplace, waitAndEmplace_try,
      waitAndPop, waitAndPop_try,
      try_catch, catch_false, mbind, M_bind, get_self, error, emit, callTM_ref,
      mret, M_ret.
    cbn [self]. rewrite Hempty. simpl. unfold Spec.waitAndEmplace. simpl.
    rewrite Hroom. simpl. unfold userWs_empty. simpl.
    destruct (ws !! 3%nat) as [[|? ?]|]; simpl; by_reports raise; simpl;
      (split; [intros Hf; discriminate Hf |]; split; [reflexivity |]; split; [reflexivity |];
       eexists _, _; split; [rewrite <- ?app_assoc; reflexivity |];
       simpl; tauto).
Qed.

(** C3 as amended, in [Synchronous] mode and in [AsynchronousIn] mode. *)
Lemma emplaceAndPop_rejected_by_mode_witness :
  let sa := Run.running_frame Spec.throwing Synchronous in
  let sb := Run.running_frame Spec.throwing AsynchronousIn in
  (Spec.mode (mThreadManager (self sa)) = mThreadManagerMode (self sa) /\
   mThreadManagerMode (self sa) = Synchronous /\
   self (snd (@emplaceAndPop Spec.throws sa)) = self sa /\
   tDatums (snd (@emplaceAndPop Spec.throws sa)) = Run.frame) /\
  (Spec.mode (mThreadManager (self sb)) = mThreadManagerMode (self sb) /\
   mThreadManagerMode (self sb) = AsynchronousIn /\
   userWs_empty Input (self sb) = true /\
   Spec.running (mThreadManager (self sb)) = true /\
   (length (Spec.queue (mThreadManager (self sb)))
      < Spec.capacity (mThreadManager (self sb)))%nat /\
   Spec.queue (mThreadManager (self (snd (@emplaceAndPop Spec.throws sb)))) = [Run.frame] /\
   tDatums (snd (@emplaceAndPop Spec.throws sb)) = None).
Proof.
  intros sa sb.
  assert ((length (Spec.queue (mThreadManager (self sb)))
             < Spec.capacity (mThreadManager (self sb)))%nat) as Hroom
    by (vm_compute; lia).
  destruct (proj1 (emplaceAndPop_rejected_by_mode Spec.throwing sa eq_refl)
              (or_introl eq_refl)) as (_ & Hself & Hd & _).
  destruct (proj2 (emplaceAndPop_rejected_by_mode Spec.throwing sb eq_refl)
              eq_refl eq_refl eq_refl Hroom) as (_ & Htm & Hnull & _).
  split.
  - split; [reflexivity |]. split; [reflexivity |]. split; [exact Hself | exact Hd].
  - split; [reflexivity |]. split; [reflexivity |]. split; [reflexivity |].
    split; [reflexivity |]. split; [exact Hroom |].
    split; [exact (f_equal Spec.queue Htm) | exact Hnull].
Defined.

(** C3 refuted: in [AsynchronousIn] mode, on a running wrapper without user
    workers, [emplaceAndPop] is not rejected before any transfer: the frame is
    emplaced, it is in the thread manager's queue and gone from the caller's
    variable, and only then is the pop rejected.  This is so whether [error]
    throws or returns. *)
Lemma emplaceAndPop_AsynchronousIn_emplaces :
  let s := Run.running_frame Spec.throwing AsynchronousIn in
  let s' := Run.running_frame Spec.returning AsynchronousIn in
  (mThreadManagerMode (self s) = AsynchronousIn /\
   Spec.queue (mThreadManager (self s)) = [] /\
   tDatums s = Run.frame /\
   fst (@emplaceAndPop Spec.throws s) = Throws Spec.wrong_end /\
   Spec.queue (mThreadManager (self (snd (@emplaceAndPop Spec.throws s)))) = [Run.frame] /\
   tDatums (snd (@emplaceAndPop Spec.throws s)) = None) /\
  (fst (@emplaceAndPop Spec.returns s') = Returns false /\
   Spec.queue (mThreadManager (self (snd (@emplaceAndPop Spec.returns s')))) = [Run.frame] /\
   tDatums (snd (@emplaceAndPop Spec.returns s')) = None).
Proof. repeat split. Qed.

(** X15 at that wrapper: the result is the same with [Synchronous] stored in
    the object, and the call starts with the thread manager's
    [waitAndEmplace]. *)
Lemma emplaceAndPop_makes_no_mode_check_witness :
  let s := Run.running_frame Spec.throwing AsynchronousIn in
  userWs_empty Input (self s) = true /\
  fst (@emplaceAndPop Spec.throws (with_mode Synchronous s)) =
    fst (@emplaceAndPop Spec.throws s) /\
  (events s ++ [EvCall (@TmWaitAndEmplace Spec.throws Run.frame)])%list
    `prefix_of` events (snd (@emplaceAndPop Spec.throws s)).
Proof.
  intros s. split; [reflexivity |]. split.
  - exact (f_equal fst
             (proj1 (@emplaceAndPop_makes_no_mode_check Spec.throws s) Synchronous)).
  - exact (proj2 (@emplaceAndPop_makes_no_mode_check Spec.throws s) eq_refl).
Defined.

(** C8 refuted.  The result need not be the batch that was built: on a
    running asynchronous wrapper whose queue already holds the frame [7], the
    overload called with the matrix [5] returns the frame [7].  And a failed
    transfer can show in the result: in [AsynchronousIn] mode, [error]
    returning, the emplace succeeds, the pop is rejected, the inner call
    returns false, and the overload returns a null pointer. *)
Lemma emplaceAndPop_cvMat_result_differs :
  let sa := snd (@tryPush Spec.throws (Run.running_frame Spec.throwing Asynchronous)) in
  let sb := Run.running_frame Spec.returning AsynchronousIn in
  (Spec.queue (mThreadManager (self sa)) = [Run.frame] /\
   fst (@emplaceAndPop_cvMat Spec.throws 5%nat sa) = Returns Run.frame /\
   Run.frame <> @batch_of Spec.throws 5%nat) /\
  (fst (@emplaceAndPop Spec.returns
          {| self := self sb; tDatums := @batch_of Spec.returns 5%nat;
             events := events sb |}) = Returns false /\
   fst (@emplaceAndPop_cvMat Spec.returns 5%nat sb) = Returns None /\
   None <> @batch_of Spec.returns 5%nat).
Proof.
  intros sa sb. split.
  - split; [vm_compute; reflexivity |]. split; [vm_compute; reflexivity |].
    intros H. discriminate H.
  - split; [vm_compute; reflexivity |]. split; [vm_compute; reflexivity |].
    intros H. discriminate H.
Qed.

(** C8 as amended, when the transfer succeeds and when it fails: the result is
    the variable's content in both cases, here the same batch. *)
Lemma emplaceAndPop_cvMat_returns_variable_witness :
  let s := Run.running_frame Spec.throwing Asynchronous in
  let s' := Run.fresh_frame Spec.throwing Asynchronous in
  let batch : @TDatumsSP Spec.throws :=
    Some [ {| cvInputData := 5%nat; datumRest := tt |} ] in
  (fst (@emplaceAndPop Spec.throws
          {| self := self s; tDatums := batch; events := events s |}) = Returns true /\
   fst (@emplaceAndPop_cvMat Spec.throws 5%nat s) = Returns batch) /\
  (fst (@emplaceAndPop Spec.throws
          {| self := self s'; tDatums := batch; events := events s' |}) = Returns false /\
   fst (@emplaceAndPop_cvMat Spec.throws 5%nat s') = Returns batch).
Proof.
  intros s s' batch. split; (split; [reflexivity |]).
  - rewrite (@emplaceAndPop_cvMat_returns_variable Spec.throws 5%nat s _ true eq_refl).
    reflexivity.
  - rewrite (@emplaceAndPop_cvMat_returns_variable Spec.throws 5%nat s' _ false eq_refl).
    reflexivity.
Defined.

(** C10 on a running wrapper with a worker bound to [Input] and one to
    [Output]. *)
Lemma destructor_tears_down_witness :
  let s := snd (@start Spec.throws
             (snd (@setWorker Spec.throws Output (Some 2%nat) false
                (Run.bound_frame Spec.throwing Synchronous Input)))) in
  let tm := mThreadManager (self s) in
  Spec.running tm = true /\
  mUserWs (self s) = [[Some 1%nat]; []; []; [Some 2%nat]] /\
  @tm_stop Spec.throws tm = (Returns tt, Spec.stopped tm) /\
  @tm_reset Spec.throws (Spec.stopped tm) = (Returns tt, Spec.stopped tm) /\
  fst (@Wrapper_dtor Spec.throws s) = Returns tt /\
  mThreadManager (self (snd (@Wrapper_dtor Spec.throws s))) = Spec.stopped tm /\
  mUserWs (self (snd (@Wrapper_dtor Spec.throws s))) !! int Input = Some [].
Proof.
  intros s tm.
  destruct (@destructor_tears_down Spec.throws s (Spec.stopped tm) (Spec.stopped tm)
              eq_refl eq_refl) as (_ & _ & _ & Hret & Htm & _ & _ & Hempty).
  split; [reflexivity |]. split; [reflexivity |]. split; [reflexivity |].
  split; [reflexivity |]. split; [exact Hret |]. split; [exact Htm |].
  reflexivity.
Defined.

(** * More of the wrapper *)

Section WrapperExtras.
Context {X : Externals}.
#[local] Existing Instance M_ret.
#[local] Existing Instance M_bind.

(** ** What a call leaves alone *)

Section Agree.
Context {T : Type} (P : WrapperData -> T).
Hypothesis P_manager : forall tm w, P (set_mThreadManager tm w) = P w.

Lemma agree_refl (s : State) : agree P s s.
Proof. reflexivity. Qed.

Lemma agree_trans (s1 s2 s3 : State) :
  agree P s1 s2 -> agree P s2 s3 -> agree P s1 s3.
Proof. unfold agree. congruence. Qed.

Ltac agrees lem :=
  apply (lem (agree P));
  first [ exact agree_refl | exact agree_trans
        | intros; exact (P_manager _ _) | intros; reflexivity ].

Lemma agree_error (message : string) (line : Z) (function file : string) :
  preserved (agree P) (error message line function file).
Proof. agrees preserved_error. Qed.

Lemma agree_configuring (f : WrapperData -> WrapperData) (line : Z)
    (function : string) :
  (forall w, P (f w) = P w) ->
  preserved (agree P)
    (try_catch (modify_self f) (fun what => error what line function FILE)).
Proof.
  intros Hf. apply (preserved_try_catch (agree P) agree_trans).
  - intros s. apply Hf.
  - intros. apply agree_error.
Qed.

Lemma agree_setWorker (workerType : WorkerType) (worker : TWorker)
    (workerOnNewThread : bool) :
  (forall w i x, P (set_mUserWs (<[i := x]> (mUserWs w)) w) = P w) ->
  (forall w i f, P (set_mUserWs (alter f i (mUserWs w)) w) = P w) ->
  (forall w i b,
     P (set_mUserWsOnNewThread (<[i := b]> (mUserWsOnNewThread w)) w) = P w) ->
  preserved (agree P) (setWorker workerType worker workerOnNewThread).
Proof.
  intros H1 H2 H3.
  apply (preserved_try_catch (agree P) agree_trans);
    [| intros; apply agree_error].
  apply (preserved_bind (agree P) agree_trans).
  - destruct worker; [intros s; reflexivity | apply agree_error].
  - intros _. apply (preserved_bind (agree P) agree_trans);
      [intros s; apply H1 |].
    intros _. apply (preserved_bind (agree P) agree_trans);
      [intros s; apply H2 |].
    intros _ s. apply H3.
Qed.

Lemma agree_manager_call (c : Call) (s : State) :
  manager_call c = true -> agree P s (run_call c s).
Proof.
  destruct c; simpl manager_call; try discriminate; intros _;
    cbn [run_call]; revert s;
    match goal with
    | |- forall s, agree P s (snd (?f s)) => change (preserved (agree P) f)
    end.
  - agrees preserved_exec.
  - agrees preserved_start.
  - agrees preserved_stop.
  - agrees preserved_isRunning.
  - agrees preserved_op_run.
  - agrees preserved_emplaceAndPop_cvMat.
Qed.

(** What each kind of call has to leave alone for [P] to be kept. *)
Lemma agree_run_call (c : Call) (s : State) :
  (is_disableMultiThreading c = true ->
   forall w, P (set_mMultiThreadEnabled false w) = P w) ->
  (is_setWorker c = true ->
   (forall w i x, P (set_mUserWs (<[i := x]> (mUserWs w)) w) = P w) /\
   (forall w i f, P (set_mUserWs (alter f i (mUserWs w)) w) = P w) /\
   (forall w i b,
      P (set_mUserWsOnNewThread (<[i := b]> (mUserWsOnNewThread w)) w) = P w)) ->
  (is_full_configure c = true ->
   forall w p f h e i o, P (set_structs p f h e i o w) = P w) ->
  (manager_call c = false ->
   forall w f h e i o, P (set_structs (mWrapperStructPose w) f h e i o w) = P w) ->
  agree P s (run_call c s).
Proof.
  intros Hdisable HsetWorker Hfull Hpart.
  destruct (manager_call c) eqn:Hmanager; [now apply agree_manager_call |].
  specialize (Hpart eq_refl).
  destruct c; try discriminate Hmanager; cbn [run_call]; revert s;
    match goal with
    | |- forall s, agree P s (snd (?f s)) => change (preserved (agree P) f)
    end.
  - unfold disableMultiThreading. apply agree_configuring. now apply Hdisable.
  - destruct (HsetWorker eq_refl) as (H1 & H2 & H3). now apply agree_setWorker.
  - unfold configure. apply agree_configuring. intros w. now apply Hfull.
  - unfold configure_Face. apply agree_configuring. intros w.
    exact (Hpart w f (mWrapperStructHand w) (mWrapperStructExtra w)
             (mWrapperStructInput w) (mWrapperStructOutput w)).
  - unfold configure_Hand. apply agree_configuring. intros w.
    exact (Hpart w (mWrapperStructFace w) h (mWrapperStructExtra w)
             (mWrapperStructInput w) (mWrapperStructOutput w)).
  - unfold configure_Extra. apply agree_configuring. intros w.
    exact (Hpart w (mWrapperStructFace w) (mWrapperStructHand w) e
             (mWrapperStructInput w) (mWrapperStructOutput w)).
  - unfold configure_Input. apply agree_configuring. intros w.
    exact (Hpart w (mWrapperStructFace w) (mWrapperStructHand w)
             (mWrapperStructExtra w) i (mWrapperStructOutput w)).
  - unfold configure_Output. apply agree_configuring. intros w.
    exact (Hpart w (mWrapperStructFace w) (mWrapperStructHand w)
             (mWrapperStructExtra w) (mWrapperStructInput w) o).
  - intros s. reflexivity.
Qed.

End Agree.

Lemma agree_run_calls {T : Type} (P : WrapperData -> T) (ok : Call -> bool)
    (cs : list Call) (s : State) :
  (forall c s, ok c = true -> agree P s (run_call c s)) ->
  forallb ok cs = true ->
  agree P s (run_calls cs s).
Proof.
  intros Hok. revert s. induction cs as [|c cs IH]; intros s Hcs; simpl in *.
  - reflexivity.
  - apply andb_prop in Hcs. destruct Hcs as [Hc Hcs].
    eapply agree_trans; [apply Hok, Hc | apply IH, Hcs].
Qed.

(** ** The two arrays *)

Lemma run_call_array_sizes (c : Call) (s : State) :
  agree array_sizes s (run_call c s).
Proof.
  apply agree_run_call; try reflexivity.
  intros _. repeat split; intros; unfold array_sizes; simpl;
    now rewrite ?length_insert, ?length_alter.
Qed.

(** X1.  The two arrays of a wrapper have length [Size] when it is
    constructed and after every sequence of calls of the interface, however
    each call ended. *)
Theorem arrays_sized_always (threadManagerMode : ThreadManagerMode)
    (uninit : nat -> bool) (d : TDatumsSP) (calls : list Call) :
  arrays_sized (self (run_calls calls (constructed threadManagerMode uninit d))).
Proof.
  assert (agree array_sizes (constructed threadManagerMode uninit d)
            (run_calls calls (constructed threadManagerMode uninit d))) as H.
  { apply (agree_run_calls array_sizes (fun _ => true)).
    - intros c s _. apply run_call_array_sizes.
    - now apply forallb_forall. }
  unfold agree, array_sizes in H.
  change (length (mUserWs (self (constructed threadManagerMode uninit d))),
          length (mUserWsOnNewThread (self (constructed threadManagerMode uninit d))))
    with (Size, Size) in H.
  injection H as Hws Hfs. split; assumption.
Qed.

(** ** [disableMultiThreading] *)

Lemma run_call_multiThread (c : Call) (s : State) :
  mMultiThreadEnabled (self (run_call c s)) =
    mMultiThreadEnabled (self s) && negb (is_disableMultiThreading c).
Proof.
  destruct (is_disableMultiThreading c) eqn:Hc.
  - destruct c; try discriminate Hc. simpl. now rewrite andb_false_r.
  - rewrite andb_true_r.
    apply (agree_run_call mMultiThreadEnabled); try reflexivity.
    + congruence.
    + intros _. repeat split.
Qed.

(** X2.  Multi-threading is enabled in a wrapper exactly as long as
    [disableMultiThreading] has not been called: after any sequence of calls
    on a constructed wrapper, [mMultiThreadEnabled] is false if and only if
    one of the calls was [disableMultiThreading].  No call enables it again. *)
Theorem multiThreading_until_disabled (threadManagerMode : ThreadManagerMode)
    (uninit : nat -> bool) (d : TDatumsSP) (calls : list Call) :
  mMultiThreadEnabled
    (self (run_calls calls (constructed threadManagerMode uninit d))) =
  negb (existsb is_disableMultiThreading calls).
Proof.
  assert (forall cs s,
            mMultiThreadEnabled (self (run_calls cs s)) =
            mMultiThreadEnabled (self s) && negb (existsb is_disableMultiThreading cs))
    as Hgen.
  { induction cs as [|c cs IH]; intros s; simpl.
    - now rewrite andb_true_r.
    - rewrite IH, run_call_multiThread, negb_orb. now rewrite andb_assoc. }
  now rewrite Hgen.
Qed.

(** ** The registrations *)

Lemma run_call_registrations (c : Call) (s : State) :
  is_setWorker c = false -> agree registrations s (run_call c s).
Proof.
  intros Hc. apply agree_run_call; try reflexivity. congruence.
Qed.

(** X3.  Only [setWorker] writes the registrations: a sequence of calls none
    of which is [setWorker] leaves the workers and the flags of every role as
    they were, however the calls ended. *)
Theorem registrations_written_by_setWorker_only (calls : list Call) (s : State) :
  forallb (fun c => negb (is_setWorker c)) calls = true ->
  mUserWs (self (run_calls calls s)) = mUserWs (self s) /\
  mUserWsOnNewThread (self (run_calls calls s)) = mUserWsOnNewThread (self s).
Proof.
  intros Hcalls.
  assert (agree registrations s (run_calls calls s)) as H.
  { apply (agree_run_calls registrations (fun c => negb (is_setWorker c)));
      [| exact Hcalls].
    intros c s' Hc. apply run_call_registrations.
    now apply negb_true_iff. }
  unfold agree, registrations in H. now injection H.
Qed.

Lemma constructed_slots_empty (threadManagerMode : ThreadManagerMode)
    (uninit : nat -> bool) (workerType : WorkerType) :
  userWs_empty workerType (Wrapper_ctor threadManagerMode uninit) = true.
Proof. now destruct workerType. Qed.

(** X4.  On a wrapper for which [setWorker] was never called, whatever other
    calls were made since the construction, every slot is empty, and no
    transfer call is rejected by the wrapper's own check: each of the six
    transfer calls is the thread manager's call under the function's
    handler. *)
Theorem transfers_forwarded_without_setWorker
    (threadManagerMode : ThreadManagerMode) (uninit : nat -> bool)
    (d : TDatumsSP) (calls : list Call) :
  forallb (fun c => negb (is_setWorker c)) calls = true ->
  let s := run_calls calls (constructed threadManagerMode uninit d) in
  mUserWs (self s) = replicate Size [] /\
  (forall workerType : WorkerType, userWs_empty workerType (self s) = true) /\
  (forall t : TransferCall,
     transfer t s =
       try_catch (forwarded t) (catch_false (catch_line t) (function_name t)) s).
Proof.
  intros Hcalls s.
  assert (mUserWs (self s) = replicate Size []) as Hws.
  { assert (agree registrations (constructed threadManagerMode uninit d) s) as H.
    { apply (agree_run_calls registrations (fun c => negb (is_setWorker c)));
        [| exact Hcalls].
      intros c s' Hc. apply run_call_registrations. now apply negb_true_iff. }
    unfold agree, registrations in H. now injection H. }
  assert (forall workerType, userWs_empty workerType (self s) = true) as Hempty.
  { intros workerType. unfold userWs_empty. rewrite Hws.
    apply (constructed_slots_empty threadManagerMode uninit). }
  split; [exact Hws |]. split; [exact Hempty |].
  intros t. apply transfer_when_cleared, Hempty.
Qed.

(** ** The lifecycle and transfer calls *)

Lemma set_mThreadManager_inj (tm : ThreadManager) (w w' : WrapperData) :
  set_mThreadManager tm w' = set_mThreadManager tm w ->
  w' = set_mThreadManager (mThreadManager w') w.
Proof.
  destruct w, w'. unfold set_mThreadManager. simpl. intros H.
  injection H. intros. now subst.
Qed.

(** X5.  [exec], [start], [stop], [isRunning], the seven transfer operations
    and [emplaceAndPop(cvMat)] write no member but [mThreadManager]: the
    configuration structs, the multi-threading flag, the mode and the
    registrations after the call are those before it. *)
Theorem manager_calls_write_only_the_manager (c : Call) (s : State) :
  manager_call c = true ->
  self (run_call c s) =
    set_mThreadManager (mThreadManager (self (run_call c s))) (self s).
Proof.
  intros Hc.
  apply (set_mThreadManager_inj (mThreadManager (self s))).
  apply (agree_manager_call (set_mThreadManager (mThreadManager (self s))));
    [reflexivity | exact Hc].
Qed.

(** ** [configure] *)

Lemma run_call_pose (c : Call) (s : State) :
  is_full_configure c = false -> agree mWrapperStructPose s (run_call c s).
Proof.
  intros Hc. apply agree_run_call; try reflexivity.
  - intros _. repeat split.
  - congruence.
Qed.

(** X6.  The pose struct is written by the six-argument [configure] only:
    there is no overload for it alone, and a sequence of calls none of which
    is the six-argument [configure] leaves [mWrapperStructPose] as it was. *)
Theorem pose_written_by_full_configure_only (calls : list Call) (s : State) :
  forallb (fun c => negb (is_full_configure c)) calls = true ->
  mWrapperStructPose (self (run_calls calls s)) = mWrapperStructPose (self s).
Proof.
  intros Hcalls.
  apply (agree_run_calls mWrapperStructPose (fun c => negb (is_full_configure c)));
    [| exact Hcalls].
  intros c s' Hc. apply run_call_pose. now apply negb_true_iff.
Qed.

(** X7.  The five one-struct overloads of [configure], called one after the
    other, amount to one call of the six-argument [configure] with the pose
    struct the wrapper already had; and the six-argument call returns without
    a report. *)
Theorem configure_overloads_compose (f : WrapperStructFace) (h : WrapperStructHand)
    (e : WrapperStructExtra) (i : WrapperStructInput) (o : WrapperStructOutput)
    (s : State) :
  run_calls [CallConfigureFace f; CallConfigureHand h; CallConfigureExtra e;
             CallConfigureInput i; CallConfigureOutput o] s =
    run_call (CallConfigure (mWrapperStructPose (self s)) f h e i o) s /\
  fst (configure (mWrapperStructPose (self s)) f h e i o s) = Returns tt /\
  events (snd (configure (mWrapperStructPose (self s)) f h e i o s)) = events s.
Proof. repeat split. Qed.

(** ** More of [setWorker] *)

Lemma alter_after_clear (ws : list (list TWorker)) (i : nat) (worker : TWorker) :
  alter (fun v => (v ++ [worker])%list) i (<[i := []]> ws) = <[i := [worker]]> ws.
Proof.
  revert i. induction ws as [|v ws IH]; intros [|i]; simpl; try reflexivity.
  f_equal. apply IH.
Qed.

(** The state [setWorker] leaves, the slot written in one step. *)
Lemma setWorker_state (workerType : WorkerType) (worker : Worker)
    (workerOnNewThread : bool) (s : State) :
  snd (setWorker workerType (Some worker) workerOnNewThread s) =
    {| self :=
         set_mUserWsOnNewThread
           (<[int workerType := workerOnNewThread]> (mUserWsOnNewThread (self s)))
           (set_mUserWs (<[int workerType := [Some worker]]> (mUserWs (self s)))
              (self s));
       tDatums := tDatums s;
       events := events s |}.
Proof. rewrite setWorker_not_null. simpl. now rewrite alter_after_clear. Qed.

(** X8.  Registering twice for the same role is registering the second
    worker only: the state after [setWorker] twice for one role is the state
    after the second call alone, flag included. *)
Theorem setWorker_last_wins (s : State) (workerType : WorkerType)
    (first second : Worker) (firstOnNewThread secondOnNewThread : bool) :
  snd (setWorker workerType (Some second) secondOnNewThread
         (snd (setWorker workerType (Some first) firstOnNewThread s))) =
  snd (setWorker workerType (Some second) secondOnNewThread s).
Proof.
  rewrite !setWorker_state. unfold set_mUserWsOnNewThread, set_mUserWs. simpl.
  now rewrite !list_insert_insert_eq.
Qed.

(** X9.  Registrations for two different roles do not interfere: the two
    calls of [setWorker] give the same state in either order. *)
Theorem setWorker_roles_commute (s : State) (a b : WorkerType)
    (workerA workerB : Worker) (aOnNewThread bOnNewThread : bool) :
  a <> b ->
  snd (setWorker a (Some workerA) aOnNewThread
         (snd (setWorker b (Some workerB) bOnNewThread s))) =
  snd (setWorker b (Some workerB) bOnNewThread
         (snd (setWorker a (Some workerA) aOnNewThread s))).
Proof.
  intros Hab.
  assert (int a <> int b) as Hne by (intros E; apply Hab; now apply int_inj).
  rewrite !setWorker_state. unfold set_mUserWsOnNewThread, set_mUserWs. simpl.
  now rewrite (list_insert_insert_ne (mUserWs (self s)) _ _ _ _ Hne),
    (list_insert_insert_ne (mUserWsOnNewThread (self s)) _ _ _ _ Hne).
Qed.

(** ** [exec] and [start] *)

(** X10.  [start] and [exec] configure the thread manager from the members
    first.  When that configuration is left by an exception, the thread
    manager is not started: the only events are the configuration and the
    handler's report.  When it returns and the thread manager then starts,
    [start] returns, the events being the configuration, the log line and the
    start, in this order; the same holds of [exec]. *)
Theorem start_and_exec_configure_first (s : State) :
  (forall (what : string) (tm1 : ThreadManager),
     configureThreadManager_on (self s) = (Throws what, tm1) ->
     start s =
       (after_report what 426 "start",
        {| self := set_mThreadManager tm1 (self s); tDatums := tDatums s;
           events := (events s ++
                      [EvCall TmConfigure; EvError what 426 "start" FILE])%list |}) /\
     exec s =
       (after_report what 408 "exec",
        {| self := set_mThreadManager tm1 (self s); tDatums := tDatums s;
           events := (events s ++
                      [EvCall TmConfigure; EvError what 408 "exec" FILE])%list |}))
  /\
  (forall tm1 tm2 : ThreadManager,
     configureThreadManager_on (self s) = (Returns tt, tm1) ->
     (tm_start tm1 = (Returns tt, tm2) ->
      start s =
        (Returns tt,
         {| self := set_mThreadManager tm2 (self s); tDatums := tDatums s;
            events := (events s ++
                       [EvCall TmConfigure; EvLog "" 421 "start" FILE;
                        EvCall TmStart])%list |})) /\
     (tm_exec tm1 = (Returns tt, tm2) ->
      exec s =
        (Returns tt,
         {| self := set_mThreadManager tm2 (self s); tDatums := tDatums s;
            events := (events s ++
                       [EvCall TmConfigure; EvLog "" 403 "exec" FILE;
                        EvCall TmExec])%list |}))).
Proof.
  unfold configureThreadManager_on, after_report.
  split.
  - intros what tm1 Hcfg.
    unfold start, exec, try_catch, call_configureThreadManager, mbind, M_bind,
      get_self, callTM, error, emit.
    simpl. rewrite Hcfg. simpl. rewrite <- !app_assoc. simpl.
    split.
    + now destruct (error_raise what 426 "start" FILE).
    + now destruct (error_raise what 408 "exec" FILE).
  - intros tm1 tm2 Hcfg. split; intros Hrun;
      unfold start, exec, try_catch, call_configureThreadManager, mbind, M_bind,
        get_self, callTM, log, emit;
      simpl; rewrite Hcfg; simpl; rewrite Hrun; simpl;
      now rewrite <- !app_assoc.
Qed.

(** ** [emplaceAndPop] with a worker registered *)

(** X11.  With an Input worker registered, and [error] throwing at the check
    of [waitAndEmplace], [emplaceAndPop] reaches the thread manager neither
    for the emplace nor for the pop: the object and the caller's variable are
    unchanged.  It returns false when the report in [waitAndEmplace]'s handler
    returns; otherwise its own handler reports the exception in turn. *)
Theorem emplaceAndPop_input_registered (s : State) (what : string) :
  userWs_empty Input (self s) = false ->
  error_raise "Emplace cannot be called if an input worker was already selected."
    481 "waitAndEmplace" FILE = Some what ->
  let s1 :=
    {| self := self s; tDatums := tDatums s;
       events := (events s ++
                  [EvError "Emplace cannot be called if an input worker was already selected."
                     481 "waitAndEmplace" FILE;
                   EvError what 486 "waitAndEmplace" FILE])%list |} in
  emplaceAndPop s =
    match error_raise what 486 "waitAndEmplace" FILE with
    | None => (Returns false, s1)
    | Some what' => catch_false 571 "emplaceAndPop" what' s1
    end.
Proof.
  intros Hreg Hraise s1.
  pose proof (transfer_when_registered WaitAndEmplace s Hreg what Hraise) as He.
  simpl in He. fold s1 in He.
  unfold emplaceAndPop, emplaceAndPop_try, try_catch, mbind, M_bind.
  rewrite He. now destruct (error_raise what 486 "waitAndEmplace" FILE).
Qed.

(** X12.  With an Output worker registered and no Input worker, when the
    thread manager accepts the emplace and [error] throws at the check of
    [waitAndPop], [emplaceAndPop] has emplaced the batch and popped nothing:
    the thread manager is in the state the emplace left, the caller's variable
    is what the emplace left of it, and the thread manager's [waitAndPop] is
    not called.  It returns false when the report in [waitAndPop]'s handler
    returns; otherwise its own handler reports the exception in turn. *)
Theorem emplaceAndPop_output_registered (s : State) (tm1 : ThreadManager)
    (d1 : TDatumsSP) (what : string) :
  userWs_empty Input (self s) = true ->
  userWs_empty Output (self s) = false ->
  tm_waitAndEmplace (mThreadManager (self s)) (tDatums s) = (Returns true, tm1, d1) ->
  error_raise "Pop cannot be called if an output worker was already selected."
    549 "waitAndPop" FILE = Some what ->
  let s1 :=
    {| self := set_mThreadManager tm1 (self s); tDatums := d1;
       events := (events s ++
                  [EvCall (TmWaitAndEmplace (tDatums s));
                   EvError "Pop cannot be called if an output worker was already selected."
                     549 "waitAndPop" FILE;
                   EvError what 554 "waitAndPop" FILE])%list |} in
  emplaceAndPop s =
    match error_raise what 554 "waitAndPop" FILE with
    | None => (Returns false, s1)
    | Some what' => catch_false 571 "emplaceAndPop" what' s1
    end.
Proof.
  intros Hin Hout Hemplace Hraise s1.
  pose proof (transfer_when_cleared WaitAndEmplace s Hin) as He.
  simpl in He. unfold try_catch, callTM_ref in He. rewrite Hemplace in He.
  set (s0 := {| self := set_mThreadManager tm1 (self s); tDatums := d1;
                events := (events s ++ [EvCall (TmWaitAndEmplace (tDatums s))])%list |})
    in He.
  assert (userWs_empty Output (self s0) = false) as Hout0 by exact Hout.
  pose proof (transfer_when_registered WaitAndPop s0 Hout0 what Hraise) as Hp.
  simpl in Hp. rewrite <- app_assoc in Hp. simpl in Hp. fold s1 in Hp.
  unfold emplaceAndPop, emplaceAndPop_try, try_catch, mbind, M_bind.
  rewrite He, Hp. now destruct (error_raise what 554 "waitAndPop" FILE).
Qed.

(** ** [emplaceAndPop(const cv::Mat&)] left by an exception *)

(** X13.  When [emplaceAndPop] on the batch built from [cvMat] is left by an
    exception, the overload's handler reports it: the overload returns a null
    pointer when the report returns, and is left by the exception the report
    throws otherwise.  The caller's own variable is untouched. *)
Theorem emplaceAndPop_cvMat_exception (cvMat : Mat) (s s' : State) (what : string) :
  emplaceAndPop
    {| self := self s; tDatums := batch_of cvMat; events := events s |}
    = (Throws what, s') ->
  emplaceAndPop_cvMat cvMat s =
    (match error_raise what 594 "emplaceAndPop" FILE with
     | Some what' => Throws what'
     | None => Returns None
     end,
     {| self := self s'; tDatums := tDatums s;
        events := (events s' ++ [EvError what 594 "emplaceAndPop" FILE])%list |}).
Proof.
  intros Hcall. unfold batch_of in Hcall.
  unfold emplaceAndPop_cvMat, try_catch, mbind, M_bind, with_local.
  simpl alter. unfold set_cvInputData, Datum_default. simpl.
  rewrite Hcall. unfold error, emit. simpl.
  now destruct (error_raise what 594 "emplaceAndPop" FILE).
Qed.

(** ** The destructor when [stop()] fails *)

(** X14.  When the thread manager's [stop()] is left by an exception, what the
    destructor does next depends on the report in [stop]'s handler.  If that
    report throws, the destructor goes to its own handler: the thread manager
    is not reset and every registration survives.  If it returns, and
    [reset()] returns, the destructor goes on as usual: the thread manager is
    reset and every slot is emptied. *)
Theorem destructor_when_stop_fails (s : State) (what : string) (tm1 : ThreadManager) :
  tm_stop (mThreadManager (self s)) = (Throws what, tm1) ->
  (forall what' : string,
     error_raise what 439 "stop" FILE = Some what' ->
     Wrapper_dtor s =
       (after_report what' 256 "~Wrapper",
        {| self := set_mThreadManager tm1 (self s); tDatums := tDatums s;
           events := (events s ++
                      [EvCall TmStop; EvError what 439 "stop" FILE;
                       EvError what' 256 "~Wrapper" FILE])%list |}))
  /\
  (error_raise what 439 "stop" FILE = None ->
   forall tm2 : ThreadManager,
     tm_reset tm1 = (Returns tt, tm2) ->
     Wrapper_dtor s =
       (Returns tt,
        {| self :=
             set_mUserWs ((fun _ => []) <$> mUserWs (self s))
               (set_mThreadManager tm2 (self s));
           tDatums := tDatums s;
           events := (events s ++
                      [EvCall TmStop; EvError what 439 "stop" FILE;
                       EvCall TmReset])%list |})).
Proof.
  intros Hstop. unfold after_report. split.
  - intros what' Hraise.
    unfold Wrapper_dtor, stop, try_catch, mbind, M_bind, callTM, error, emit.
    simpl. rewrite Hstop. simpl. rewrite Hraise. simpl.
    rewrite <- !app_assoc. simpl.
    now destruct (error_raise what' 256 "~Wrapper" FILE).
  - intros Hraise tm2 Hreset.
    unfold Wrapper_dtor, stop, try_catch, mbind, M_bind, callTM, error, emit,
      modify_self, get_self, put_self.
    simpl. rewrite Hstop. simpl. rewrite Hraise. simpl. rewrite Hreset. simpl.
    now rewrite <- !app_assoc.
Qed.

End WrapperExtras.

(** * More runs on the modelled thread manager *)

(** X3 on a wrapper with worker [1] bound to [Input]: started, used, switched
    to one thread and stopped, it still has that registration. *)
Lemma registrations_written_by_setWorker_only_witness :
  let s := Run.bound_frame Spec.throwing Asynchronous Input in
  let calls : list (@Call Spec.throws) :=
    [CallStart; CallTransfer (OneEnd TryPop); CallDisableMultiThreading; CallStop] in
  forallb (fun c => negb (is_setWorker c)) calls = true /\
  mUserWs (self (run_calls calls s)) = [[Some 1%nat]; []; []; []].
Proof.
  intros s calls. split; [reflexivity |].
  exact (proj1 (@registrations_written_by_setWorker_only Spec.throws calls s eq_refl)).
Defined.

(** X4 on a wrapper started and stopped again: its slots are empty and
    [tryPop] is the thread manager's, which returns false once stopped. *)
Lemma transfers_forwarded_without_setWorker_witness :
  let calls : list (@Call Spec.throws) := [CallStart; CallStop] in
  let s := run_calls calls (@constructed Spec.throws Asynchronous (fun _ => true) None) in
  forallb (fun c => negb (is_setWorker c)) calls = true /\
  mUserWs (self s) = [[]; []; []; []] /\
  userWs_empty PreProcessing (self s) = true /\
  fst (@transfer Spec.throws TryPop s) = Returns false.
Proof.
  intros calls s.
  destruct (@transfers_forwarded_without_setWorker Spec.throws Asynchronous
              (fun _ => true) None calls eq_refl) as (Hws & Hempty & Hforwarded).
  split; [reflexivity |]. split; [exact Hws |].
  split; [exact (Hempty PreProcessing) |].
  fold s in Hforwarded. rewrite (Hforwarded TryPop). vm_compute. reflexivity.
Defined.

(** X5 at [emplaceAndPop] in [AsynchronousIn] mode, which changes the thread
    manager's queue and nothing else of the object. *)
Lemma manager_calls_write_only_the_manager_witness :
  let s := Run.running_frame Spec.throwing AsynchronousIn in
  let c : @Call Spec.throws := CallTransfer BothEnds in
  manager_call c = true /\
  Spec.queue (mThreadManager (self (run_call c s))) = [Run.frame] /\
  self (run_call c s) =
    set_mThreadManager (mThreadManager (self (run_call c s))) (self s).
Proof.
  intros s c. split; [reflexivity |]. split; [reflexivity |].
  exact (@manager_calls_write_only_the_manager Spec.throws c s eq_refl).
Defined.

(** X6 on a sequence with one-struct overloads and lifecycle calls. *)
Lemma pose_written_by_full_configure_only_witness :
  let s := Run.fresh_frame Spec.throwing Synchronous in
  let calls : list (@Call Spec.throws) :=
    [@CallConfigureFace Spec.throws tt; @CallConfigureOutput Spec.throws tt;
     CallStart; CallStop] in
  forallb (fun c => negb (is_full_configure c)) calls = true /\
  mWrapperStructPose (self (run_calls calls s)) = mWrapperStructPose (self s).
Proof.
  intros s calls. split; [reflexivity |].
  exact (@pose_written_by_full_configure_only Spec.throws calls s eq_refl).
Defined.

(** X9 for [Input] and [Output]. *)
Lemma setWorker_roles_commute_witness :
  let s := Run.fresh_frame Spec.throwing Synchronous in
  Input <> Output /\
  snd (@setWorker Spec.throws Input (Some 1%nat) true
         (snd (@setWorker Spec.throws Output (Some 2%nat) false s))) =
  snd (@setWorker Spec.throws Output (Some 2%nat) false
         (snd (@setWorker Spec.throws Input (Some 1%nat) true s))).
Proof.
  intros s.
  assert (Input <> Output) as Hne by discriminate.
  split; [exact Hne |].
  exact (@setWorker_roles_commute Spec.throws s Input Output 1%nat 2%nat true false Hne).
Defined.

(** X10: a thread manager that cannot be configured is not started; one that
    can be is running after [start]. *)
Lemma start_and_exec_configure_first_witness :
  let s := Faulty.bound Spec.throwing in
  let s' := Run.fresh_frame Spec.throwing Asynchronous in
  (@configureThreadManager_on Faulty.throws (self s) =
     (Throws Faulty.configuration_failed, mThreadManager (self s)) /\
   fst (@start Faulty.throws s) = Throws Faulty.configuration_failed /\
   Spec.running (mThreadManager (self (snd (@start Faulty.throws s)))) = false) /\
  (@configureThreadManager_on Spec.throws (self s') =
     (Returns tt, mThreadManager (self s')) /\
   fst (@start Spec.throws s') = Returns tt /\
   Spec.running (mThreadManager (self (snd (@start Spec.throws s')))) = true).
Proof.
  intros s s'. split; (split; [reflexivity |]).
  - rewrite (proj1 (proj1 (@start_and_exec_configure_first Faulty.throws s)
                      _ _ eq_refl)).
    split; reflexivity.
  - rewrite (proj1 (proj2 (@start_and_exec_configure_first Spec.throws s')
                      _ _ eq_refl) eq_refl).
    split; reflexivity.
Defined.

(** X11 with worker [1] bound to [Input]: the thread manager's queue stays
    empty and the caller keeps its frame. *)
Lemma emplaceAndPop_input_registered_witness :
  let s := snd (@start Spec.throws (Run.bound_frame Spec.throwing Asynchronous Input)) in
  userWs_empty Input (self s) = false /\
  fst (@emplaceAndPop Spec.throws s) =
    Throws "Emplace cannot be called if an input worker was already selected." /\
  Spec.queue (mThreadManager (self (snd (@emplaceAndPop Spec.throws s)))) = [] /\
  tDatums (snd (@emplaceAndPop Spec.throws s)) = Run.frame.
Proof.
  intros s. split; [reflexivity |].
  rewrite (@emplaceAndPop_input_registered Spec.throws s _ eq_refl eq_refl).
  repeat split.
Defined.

(** X12 with worker [1] bound to [Output]: the frame is in the thread
    manager's queue and gone from the caller's variable. *)
Lemma emplaceAndPop_output_registered_witness :
  let s := snd (@start Spec.throws (Run.bound_frame Spec.throwing Asynchronous Output)) in
  userWs_empty Input (self s) = true /\
  userWs_empty Output (self s) = false /\
  fst (@tm_waitAndEmplace Spec.throws (mThreadManager (self s)) (tDatums s))
    = (Returns true, Spec.with_queue [Run.frame] (mThreadManager (self s))) /\
  fst (@emplaceAndPop Spec.throws s) =
    Throws "Pop cannot be called if an output worker was already selected." /\
  Spec.queue (mThreadManager (self (snd (@emplaceAndPop Spec.throws s)))) = [Run.frame] /\
  tDatums (snd (@emplaceAndPop Spec.throws s)) = None.
Proof.
  intros s. split; [reflexivity |]. split; [reflexivity |]. split; [reflexivity |].
  rewrite (@emplaceAndPop_output_registered Spec.throws s _ _ _
             eq_refl eq_refl eq_refl eq_refl).
  repeat split.
Defined.

(** X13 with worker [1] bound to [Input]: the inner call is left by the
    exception of the check, and so is the overload. *)
Lemma emplaceAndPop_cvMat_exception_witness :
  let s := Run.bound_frame Spec.throwing Asynchronous Input in
  fst (@emplaceAndPop Spec.throws
         {| self := self s; tDatums := @batch_of Spec.throws 5%nat; events := events s |})
    = Throws "Emplace cannot be called if an input worker was already selected." /\
  fst (@emplaceAndPop_cvMat Spec.throws 5%nat s) =
    Throws "Emplace cannot be called if an input worker was already selected." /\
  tDatums (snd (@emplaceAndPop_cvMat Spec.throws 5%nat s)) = Run.frame.
Proof.
  intros s. split; [reflexivity |].
  rewrite (@emplaceAndPop_cvMat_exception Spec.throws 5%nat s _ _ eq_refl).
  split; reflexivity.
Defined.

(** X14 on a wrapper with worker [1] bound to [Input] whose thread manager
    cannot be stopped: the registration survives the destructor when [error]
    throws, and is cleared when [error] returns. *)
Lemma destructor_when_stop_fails_witness :
  let s := Faulty.bound Spec.throwing in
  let s' := Faulty.bound Spec.returning in
  (@tm_stop Faulty.throws (mThreadManager (self s)) =
     (Throws Faulty.stop_failed, mThreadManager (self s)) /\
   fst (@Wrapper_dtor Faulty.throws s) = Throws Faulty.stop_failed /\
   mUserWs (self (snd (@Wrapper_dtor Faulty.throws s))) = [[Some 1%nat]; []; []; []]) /\
  (@error_raise Faulty.returns Faulty.stop_failed 439 "stop" FILE = None /\
   fst (@Wrapper_dtor Faulty.returns s') = Returns tt /\
   mUserWs (self (snd (@Wrapper_dtor Faulty.returns s'))) = [[]; []; []; []]).
Proof.
  intros s s'. split; (split; [reflexivity |]).
  - rewrite (proj1 (@destructor_when_stop_fails Faulty.throws s _ _ eq_refl)
               _ eq_refl).
    split; reflexivity.
  - rewrite (proj2 (@destructor_when_stop_fails Faulty.returns s' _ _ eq_refl)
               eq_refl _ eq_refl).
    split; reflexivity.
Defined.
